(** * The client application of the search agent (App.jsx)

    A shallow embedding of the React component [App] of
    [ai-agent-frontend/src/App.jsx]: its component state, its four
    asynchronous handlers ([checkAgentStatus], [handleSearch],
    [handleSearchAndAnalyze], [handleChat]) and the events that invoke
    them, followed by the properties of the request/state orchestration.

    Modelling conventions.
    - A JavaScript string is its sequence of UTF-16 code units.
    - A value decoded by [response.json()] is a [json] tree; numbers are
      integers (the handlers only forward a number or test it against 0).
    - An [async] handler is a program [prog]: a tree of setter calls,
      clock reads, console writes and [await]s, with [throw] and
      [try]/[catch]/[finally].
    - A handler closes over the state of the render that created it; a
      setter call updates the component store.  React applies the queued
      updates of one synchronous segment in call order, so the store at
      every suspension point is the one obtained by applying them one by
      one.
    - Rendering, [e.preventDefault()] and the effect that scrolls the chat
      into view read the state and write none of it; they are left out. *)

From Stdlib Require Import ZArith NArith Ascii String.
From stdpp Require Import base option list.

Set Warnings "-register-all".
Local Open Scope list_scope.

(** ** JavaScript strings *)

Module Js.

Definition jsstring := list N.

(** A source literal, all of whose characters are ASCII. *)
Definition lit (s : string) : jsstring :=
  List.map N_of_ascii (list_ascii_of_string s).

(** WhiteSpace and LineTerminator code points of ECMAScript, the ones
    [String.prototype.trim] strips. *)
Definition is_white (c : N) : bool :=
  ((9 <=? c) && (c <=? 13) || (c =? 32) || (c =? 160) || (c =? 5760)
   || (8192 <=? c) && (c <=? 8202) || (c =? 8232) || (c =? 8233)
   || (c =? 8239) || (c =? 8287) || (c =? 12288) || (c =? 65279))%N.

Fixpoint trim_start (s : jsstring) : jsstring :=
  match s with
  | c :: s' => if is_white c then trim_start s' else s
  | [] => []
  end.

Definition trim (s : jsstring) : jsstring :=
  rev (trim_start (rev (trim_start s))).

(** ToBoolean on a string: only the empty string is falsy. *)
Definition string_truthy (s : jsstring) : bool :=
  match s with [] => false | _ :: _ => true end.

Fixpoint eqb (a b : jsstring) : bool :=
  match a, b with
  | [], [] => true
  | x :: a', y :: b' => (x =? y)%N && eqb a' b'
  | _, _ => false
  end.

End Js.

Abbreviation jsstring := Js.jsstring.
Notation "'js' s" := (Js.lit s%string) (at level 1, s at level 0, format "'js' s").

(** ** Values decoded from a response body *)

Inductive json : Type :=
| JNull
| JBool (b : bool)
| JNum (n : Z)
| JStr (s : jsstring)
| JArr (items : list json)
| JObj (fields : list (jsstring * json)).

(** ToBoolean: [null], [false], [0] and [""] are falsy; arrays and objects
    are truthy even when empty. *)
Definition truthy (v : json) : bool :=
  match v with
  | JNull => false
  | JBool b => b
  | JNum n => negb (n =? 0)%Z
  | JStr s => Js.string_truthy s
  | JArr _ | JObj _ => true
  end.

(** Own property of an object built by [JSON.parse] or by an object
    literal: of two fields with one name the later one wins. *)
Fixpoint own_field (key : jsstring) (fields : list (jsstring * json)) : option json :=
  match fields with
  | [] => None
  | (k, v) :: rest =>
      match own_field key rest with
      | Some w => Some w
      | None => if Js.eqb k key then Some v else None
      end
  end.

(** An exception value; the handlers read at most its [message]. *)
Record JsError := { err_message : jsstring }.

(** [v.key] for a key that no prototype defines ([response], [results],
    [search_results], [analysis], ...): a TypeError on [null], the own
    field of an object, [undefined] (here [None]) on everything else. *)
Definition get_prop (v : json) (key : jsstring) : JsError + option json :=
  match v with
  | JNull =>
      inl {| err_message := js"Cannot read properties of null (reading '" ++ key ++ js"')" |}
  | JObj fields => inr (own_field key fields)
  | _ => inr None
  end.

(** [x || dflt] where [x] is the result of a property read. *)
Definition or_else (x : option json) (dflt : json) : json :=
  match x with
  | Some v => if truthy v then v else dflt
  | None => dflt
  end.

(** ** Component state *)

Inductive Role := User | Assistant.

Record ChatMessage := {
  role : Role;
  content : json;
  timestamp : jsstring
}.

(** The [useState] cells of [App], with their initial values. *)
Record State := {
  searchQuery : jsstring;
  searchResults : json;
  isSearching : bool;
  chatMessages : list ChatMessage;
  chatInput : jsstring;
  isChatting : bool;
  analysis : json;
  isAnalyzing : bool;
  agentStatus : json;
  activeTab : jsstring
}.

Definition initial_state : State := {|
  searchQuery := js"";
  searchResults := JArr [];
  isSearching := false;
  chatMessages := [];
  chatInput := js"";
  isChatting := false;
  analysis := JStr js"";
  isAnalyzing := false;
  agentStatus := JNull;
  activeTab := js"search"
|}.

(** A setter call.  Every setter is called with a value, except
    [setChatMessages], which the source always calls with an updater
    function of the previous transcript. *)
Inductive Action :=
| SetSearchQuery (v : jsstring)
| SetSearchResults (v : json)
| SetIsSearching (b : bool)
| SetChatMessages (updater : list ChatMessage -> list ChatMessage)
| SetChatInput (v : jsstring)
| SetIsChatting (b : bool)
| SetAnalysis (v : json)
| SetIsAnalyzing (b : bool)
| SetAgentStatus (v : json)
| SetActiveTab (v : jsstring).

Definition apply_action (a : Action) (s : State) : State :=
  match a with
  | SetSearchQuery v =>
      {| searchQuery := v; searchResults := searchResults s; isSearching := isSearching s;
         chatMessages := chatMessages s; chatInput := chatInput s; isChatting := isChatting s;
         analysis := analysis s; isAnalyzing := isAnalyzing s; agentStatus := agentStatus s;
         activeTab := activeTab s |}
  | SetSearchResults v =>
      {| searchQuery := searchQuery s; searchResults := v; isSearching := isSearching s;
         chatMessages := chatMessages s; chatInput := chatInput s; isChatting := isChatting s;
         analysis := analysis s; isAnalyzing := isAnalyzing s; agentStatus := agentStatus s;
         activeTab := activeTab s |}
  | SetIsSearching b =>
      {| searchQuery := searchQuery s; searchResults := searchResults s; isSearching := b;
         chatMessages := chatMessages s; chatInput := chatInput s; isChatting := isChatting s;
         analysis := analysis s; isAnalyzing := isAnalyzing s; agentStatus := agentStatus s;
         activeTab := activeTab s |}
  | SetChatMessages updater =>
      {| searchQuery := searchQuery s; searchResults := searchResults s; isSearching := isSearching s;
         chatMessages := updater (chatMessages s); chatInput := chatInput s; isChatting := isChatting s;
         analysis := analysis s; isAnalyzing := isAnalyzing s; agentStatus := agentStatus s;
         activeTab := activeTab s |}
  | SetChatInput v =>
      {| searchQuery := searchQuery s; searchResults := searchResults s; isSearching := isSearching s;
         chatMessages := chatMessages s; chatInput := v; isChatting := isChatting s;
         analysis := analysis s; isAnalyzing := isAnalyzing s; agentStatus := agentStatus s;
         activeTab := activeTab s |}
  | SetIsChatting b =>
      {| searchQuery := searchQuery s; searchResults := searchResults s; isSearching := isSearching s;
         chatMessages := chatMessages s; chatInput := chatInput s; isChatting := b;
         analysis := analysis s; isAnalyzing := isAnalyzing s; agentStatus := agentStatus s;
         activeTab := activeTab s |}
  | SetAnalysis v =>
      {| searchQuery := searchQuery s; searchResults := searchResults s; isSearching := isSearching s;
         chatMessages := chatMessages s; chatInput := chatInput s; isChatting := isChatting s;
         analysis := v; isAnalyzing := isAnalyzing s; agentStatus := agentStatus s;
         activeTab := activeTab s |}
  | SetIsAnalyzing b =>
      {| searchQuery := searchQuery s; searchResults := searchResults s; isSearching := isSearching s;
         chatMessages := chatMessages s; chatInput := chatInput s; isChatting := isChatting s;
         analysis := analysis s; isAnalyzing := b; agentStatus := agentStatus s;
         activeTab := activeTab s |}
  | SetAgentStatus v =>
      {| searchQuery := searchQuery s; searchResults := searchResults s; isSearching := isSearching s;
         chatMessages := chatMessages s; chatInput := chatInput s; isChatting := isChatting s;
         analysis := analysis s; isAnalyzing := isAnalyzing s; agentStatus := v;
         activeTab := activeTab s |}
  | SetActiveTab v =>
      {| searchQuery := searchQuery s; searchResults := searchResults s; isSearching := isSearching s;
         chatMessages := chatMessages s; chatInput := chatInput s; isChatting := isChatting s;
         analysis := analysis s; isAnalyzing := isAnalyzing s; agentStatus := agentStatus s;
         activeTab := v |}
  end.

(** ** Requests and responses *)

Inductive Method := GET | POST.

(** The arguments of a [fetch] call; [req_body] is the value handed to
    [JSON.stringify]. *)
Record Request := {
  req_url : jsstring;
  req_method : Method;
  req_headers : list (jsstring * jsstring);
  req_body : option json
}.

(** What the handlers observe of a [Response]: the settlement of its
    [json()] promise. *)
Record Response := { resp_json : JsError + json }.

Definition API_BASE : jsstring := js"http://localhost:5000/api".

(** ** Asynchronous programs *)

Inductive prog (A : Type) : Type :=
| Ret (a : A)
| Throw (e : JsError)
| Call (a : Action) (k : prog A)
| Now (k : jsstring -> prog A)
| ConsoleError (label : jsstring) (e : JsError) (k : prog A)
| AwaitFetch (r : Request) (k : JsError + Response -> prog A)
| AwaitJson (r : Response) (k : JsError + json -> prog A).

Arguments Ret {A} a.
Arguments Throw {A} e.
Arguments Call {A} a k.
Arguments Now {A} k.
Arguments ConsoleError {A} label e k.
Arguments AwaitFetch {A} r k.
Arguments AwaitJson {A} r k.

Fixpoint bind {A B} (p : prog A) (f : A -> prog B) : prog B :=
  match p with
  | Ret a => f a
  | Throw e => Throw e
  | Call a k => Call a (bind k f)
  | Now k => Now (fun t => bind (k t) f)
  | ConsoleError l e k => ConsoleError l e (bind k f)
  | AwaitFetch r k => AwaitFetch r (fun x => bind (k x) f)
  | AwaitJson r k => AwaitJson r (fun x => bind (k x) f)
  end.

(** [try { p } catch (error) { h error }] *)
Fixpoint try_catch {A} (p : prog A) (h : JsError -> prog A) : prog A :=
  match p with
  | Ret a => Ret a
  | Throw e => h e
  | Call a k => Call a (try_catch k h)
  | Now k => Now (fun t => try_catch (k t) h)
  | ConsoleError l e k => ConsoleError l e (try_catch k h)
  | AwaitFetch r k => AwaitFetch r (fun x => try_catch (k x) h)
  | AwaitJson r k => AwaitJson r (fun x => try_catch (k x) h)
  end.

(** [try { p } finally { f }]: [f] runs on both exits and the exit of
    [p] is kept unless [f] itself throws. *)
Fixpoint try_finally {A} (p : prog A) (f : prog unit) : prog A :=
  match p with
  | Ret a => bind f (fun _ => Ret a)
  | Throw e => bind f (fun _ => Throw e)
  | Call a k => Call a (try_finally k f)
  | Now k => Now (fun t => try_finally (k t) f)
  | ConsoleError l e k => ConsoleError l e (try_finally k f)
  | AwaitFetch r k => AwaitFetch r (fun x => try_finally (k x) f)
  | AwaitJson r k => AwaitJson r (fun x => try_finally (k x) f)
  end.

Declare Scope prog_scope.
Delimit Scope prog_scope with prog.
Bind Scope prog_scope with prog.
Notation "x <- p ;; q" := (bind p (fun x => q))
  (at level 100, p at next level, right associativity) : prog_scope.
Notation "p ;; q" := (bind p (fun _ => q))
  (at level 100, right associativity) : prog_scope.

(** A rejected promise throws at its [await]. *)
Definition settled {A} (x : JsError + A) : prog A :=
  match x with inl e => Throw e | inr a => Ret a end.

Definition call (a : Action) : prog unit := Call a (Ret tt).
Definition now : prog jsstring := Now Ret.
Definition console_error (label : jsstring) (e : JsError) : prog unit :=
  ConsoleError label e (Ret tt).
Definition await_fetch (r : Request) : prog Response := AwaitFetch r settled.
Definition await_json (r : Response) : prog json := AwaitJson r settled.
Definition read_prop (v : json) (key : jsstring) : prog (option json) :=
  settled (get_prop v key).

Arguments Js.lit : simpl never.

(** ** The handlers of [App]

    Each handler takes the state [s] of the render that created it: the
    values its closure reads ([searchQuery], [chatInput], [chatMessages]). *)

Local Open Scope prog_scope.

Definition json_headers : list (jsstring * jsstring) :=
  [(js"Content-Type", js"application/json")].

Definition status_request : Request :=
  {| req_url := API_BASE ++ js"/agent/status"; req_method := GET;
     req_headers := []; req_body := None |}.

Definition unhealthy (error : JsError) : json :=
  JObj [(js"status", JStr js"unhealthy"); (js"error", JStr (err_message error))].

Definition checkAgentStatus : prog unit :=
  try_catch
    (response <- await_fetch status_request ;;
     data <- await_json response ;;
     call (SetAgentStatus data))
    (fun error =>
       console_error js"Error checking agent status:" error ;;
       call (SetAgentStatus (unhealthy error))).

Definition search_request (s : State) : Request :=
  {| req_url := API_BASE ++ js"/agent/search"; req_method := POST;
     req_headers := json_headers;
     req_body := Some (JObj [(js"query", JStr (searchQuery s));
                             (js"num_results", JNum 10)]) |}.

Definition handleSearch (s : State) : prog unit :=
  if negb (Js.string_truthy (Js.trim (searchQuery s))) then Ret tt else
  call (SetIsSearching true) ;;
  try_finally
    (try_catch
       (response <- await_fetch (search_request s) ;;
        data <- await_json response ;;
        results <- read_prop data js"results" ;;
        call (SetSearchResults (or_else results (JArr []))))
       (fun error =>
          console_error js"Error searching:" error ;;
          call (SetSearchResults (JArr []))))
    (call (SetIsSearching false)).

Definition analysis_prompt : jsstring :=
  js"Analyze these search results and provide comprehensive insights, key findings, and actionable information.".

Definition analyze_request (s : State) : Request :=
  {| req_url := API_BASE ++ js"/agent/search-and-analyze"; req_method := POST;
     req_headers := json_headers;
     req_body := Some (JObj [(js"query", JStr (searchQuery s));
                             (js"analysis_prompt", JStr analysis_prompt)]) |}.

Definition analysis_error : jsstring := js"Error occurred during analysis.".

Definition handleSearchAndAnalyze (s : State) : prog unit :=
  if negb (Js.string_truthy (Js.trim (searchQuery s))) then Ret tt else
  call (SetIsSearching true) ;;
  call (SetIsAnalyzing true) ;;
  try_finally
    (try_catch
       (response <- await_fetch (analyze_request s) ;;
        data <- await_json response ;;
        results <- read_prop data js"search_results" ;;
        call (SetSearchResults (or_else results (JArr []))) ;;
        text <- read_prop data js"analysis" ;;
        call (SetAnalysis (or_else text (JStr js""))) ;;
        call (SetActiveTab js"analysis"))
       (fun error =>
          console_error js"Error in search and analyze:" error ;;
          call (SetSearchResults (JArr [])) ;;
          call (SetAnalysis (JStr analysis_error))))
    (call (SetIsSearching false) ;;
     call (SetIsAnalyzing false)).

Definition role_name (r : Role) : jsstring :=
  match r with User => js"user" | Assistant => js"assistant" end.

(** [JSON.stringify] of a transcript entry. *)
Definition json_of_message (m : ChatMessage) : json :=
  JObj [(js"role", JStr (role_name (role m)));
        (js"content", content m);
        (js"timestamp", JStr (timestamp m))].

Definition system_prompt : jsstring :=
  js"You are a helpful AI assistant. Provide clear, informative, and engaging responses.".

Definition chat_request (s : State) : Request :=
  {| req_url := API_BASE ++ js"/agent/chat"; req_method := POST;
     req_headers := json_headers;
     req_body := Some (JObj [(js"message", JStr (chatInput s));
                             (js"conversation_history",
                              JArr (List.map json_of_message (chatMessages s)));
                             (js"system_prompt", JStr system_prompt)]) |}.

Definition reply_missing : jsstring := js"Sorry, I encountered an error.".
Definition reply_failed : jsstring :=
  js"Sorry, I encountered an error while processing your message.".

(** The updater [prev => [...prev, m]]. *)
Definition append_message (m : ChatMessage) : list ChatMessage -> list ChatMessage :=
  fun prev => prev ++ [m].

Definition handleChat (s : State) : prog unit :=
  if negb (Js.string_truthy (Js.trim (chatInput s))) then Ret tt else
  t <- now ;;
  let userMessage := {| role := User; content := JStr (chatInput s); timestamp := t |} in
  call (SetChatMessages (append_message userMessage)) ;;
  call (SetChatInput js"") ;;
  call (SetIsChatting true) ;;
  try_finally
    (try_catch
       (response <- await_fetch (chat_request s) ;;
        data <- await_json response ;;
        reply <- read_prop data js"response" ;;
        t' <- now ;;
        let assistantMessage :=
          {| role := Assistant; content := or_else reply (JStr reply_missing);
             timestamp := t' |} in
        call (SetChatMessages (append_message assistantMessage)))
       (fun error =>
          console_error js"Error in chat:" error ;;
          t' <- now ;;
          let errorMessage :=
            {| role := Assistant; content := JStr reply_failed; timestamp := t' |} in
          call (SetChatMessages (append_message errorMessage))))
    (call (SetIsChatting false)).

Record KeyEvent := { key : jsstring; shiftKey : bool }.

Definition handleKeyPress (e : KeyEvent) (action : prog unit) : prog unit :=
  if Js.eqb (key e) js"Enter" && negb (shiftKey e) then action else Ret tt.

Local Close Scope prog_scope.

(** ** Running a program up to its next [await] *)

Inductive Event :=
| EvCall (a : Action)
| EvRequest (r : Request)
| EvConsoleError (label : jsstring) (e : JsError)
| EvUnhandledRejection (e : JsError).

(** How a synchronous segment ends: the handler returned, an exception
    escaped it, or it is suspended on a promise. *)
Inductive Outcome :=
| Finished
| Raised (e : JsError)
| OnFetch (r : Request) (k : JsError + Response -> prog unit)
| OnJson (r : Response) (k : JsError + json -> prog unit).

Record Run := {
  outcome : Outcome;
  store : State;
  ticks : nat;
  events : list Event
}.

Definition emit (e : Event) (r : Run) : Run :=
  {| outcome := outcome r; store := store r; ticks := ticks r;
     events := e :: events r |}.

Section Execution.

(** The [n]-th reading of [new Date().toISOString()] in the session. *)
Variable clock : nat -> jsstring.

Fixpoint exec (p : prog unit) (s : State) (n : nat) : Run :=
  match p with
  | Ret _ => {| outcome := Finished; store := s; ticks := n; events := [] |}
  | Throw e => {| outcome := Raised e; store := s; ticks := n; events := [] |}
  | Call a k => emit (EvCall a) (exec k (apply_action a s) n)
  | Now k => exec (k (clock n)) s (S n)
  | ConsoleError l e k => emit (EvConsoleError l e) (exec k s n)
  | AwaitFetch r k =>
      {| outcome := OnFetch r k; store := s; ticks := n; events := [EvRequest r] |}
  | AwaitJson r k => {| outcome := OnJson r k; store := s; ticks := n; events := [] |}
  end.

(** ** The mounted component and its environment *)

(** A suspended handler: the promise it awaits and its continuation. *)
Inductive Pending :=
| PFetch (r : Request) (k : JsError + Response -> prog unit)
| PJson (r : Response) (k : JsError + json -> prog unit).

Record World := {
  w_store : State;
  w_ticks : nat;
  w_pending : list Pending;
  w_log : list Event
}.

Definition suspended (o : Outcome) : list Pending :=
  match o with
  | OnFetch r k => [PFetch r k]
  | OnJson r k => [PJson r k]
  | Finished | Raised _ => []
  end.

Definition escaped (o : Outcome) : list Event :=
  match o with
  | Raised e => [EvUnhandledRejection e]
  | _ => []
  end.

(** Run [p] against the world until it returns or suspends. *)
Definition launch (p : prog unit) (w : World) : World :=
  let r := exec p (w_store w) (w_ticks w) in
  {| w_store := store r;
     w_ticks := ticks r;
     w_pending := w_pending w ++ suspended (outcome r);
     w_log := w_log w ++ events r ++ escaped (outcome r) |}.

Definition forget (i : nat) (w : World) : World :=
  {| w_store := w_store w; w_ticks := w_ticks w;
     w_pending := delete i (w_pending w); w_log := w_log w |}.

(** What can happen to the mounted component: the user acts on a
    control, or a promise some handler awaits settles. *)
Inductive Input :=
| ChangeSearchQuery (v : jsstring)
| KeyPressSearch (e : KeyEvent)
| ClickSearch
| ClickSearchAndAnalyze
| SelectTab (v : jsstring)
| ChangeChatInput (v : jsstring)
| KeyPressChat (e : KeyEvent)
| ClickSend
| FetchSettles (i : nat) (answer : JsError + Response)
| BodySettles (i : nat).

Definition blank (v : jsstring) : bool := negb (Js.string_truthy (Js.trim v)).

(** The [disabled] attributes of the three buttons. *)
Definition search_disabled (s : State) : bool :=
  isSearching s || blank (searchQuery s).
Definition analyze_disabled (s : State) : bool :=
  isSearching s || isAnalyzing s || blank (searchQuery s).
Definition send_disabled (s : State) : bool :=
  isChatting s || blank (chatInput s).

Definition deliver (i : Input) (w : World) : World :=
  let s := w_store w in
  match i with
  | ChangeSearchQuery v => launch (call (SetSearchQuery v)) w
  | KeyPressSearch e => launch (handleKeyPress e (handleSearch s)) w
  | ClickSearch => if search_disabled s then w else launch (handleSearch s) w
  | ClickSearchAndAnalyze =>
      if analyze_disabled s then w else launch (handleSearchAndAnalyze s) w
  | SelectTab v => launch (call (SetActiveTab v)) w
  | ChangeChatInput v => launch (call (SetChatInput v)) w
  | KeyPressChat e => launch (handleKeyPress e (handleChat s)) w
  | ClickSend => if send_disabled s then w else launch (handleChat s) w
  | FetchSettles i answer =>
      match w_pending w !! i with
      | Some (PFetch _ k) => launch (k answer) (forget i w)
      | _ => w
      end
  | BodySettles i =>
      match w_pending w !! i with
      | Some (PJson r k) => launch (k (resp_json r)) (forget i w)
      | _ => w
      end
  end.

Definition session (inputs : list Input) (w : World) : World :=
  fold_left (fun w i => deliver i w) inputs w.

(** The component right after mounting: the initial state, and the
    mount effect [useEffect(() => { checkAgentStatus() }, [])] run once. *)
Definition mounted : World :=
  launch checkAgentStatus
    {| w_store := initial_state; w_ticks := 0; w_pending := []; w_log := [] |}.

End Execution.

(** ** Resuming a suspended handler *)

Definition idle (o : Outcome) (s : State) (n : nat) : Run :=
  {| outcome := o; store := s; ticks := n; events := [] |}.

(** [(await response.json()).key], with the exception of either step. *)
Definition decoded (body : JsError + json) (key : jsstring) : JsError + option json :=
  match body with
  | inl e => inl e
  | inr data => get_prop data key
  end.

(** The console line of the [catch] block, when the response fails. *)
Definition failure_log (label : jsstring) (body : JsError + json) (key : jsstring) : list Event :=
  match decoded body key with
  | inl e => [EvConsoleError label e]
  | inr _ => []
  end.

Definition is_append (e : Event) : bool :=
  match e with EvCall (SetChatMessages _) => true | _ => false end.

Definition is_request (e : Event) : bool :=
  match e with EvRequest _ => true | _ => false end.

Definition is_status_request (e : Event) : bool :=
  match e with
  | EvRequest r => Js.eqb (req_url r) (req_url status_request)
  | _ => false
  end.

Definition is_status_update (e : Event) : bool :=
  match e with EvCall (SetAgentStatus _) => true | _ => false end.

(** Number of events of a trace that satisfy [f]. *)
Definition count (f : Event -> bool) (evs : list Event) : nat :=
  length (List.filter f evs).

Section Observations.

Variable clock : nat -> jsstring.

(** The [fetch] promise a handler is suspended on settles with [answer]
    while the store is [s]; the handler runs to its next suspension. *)
Definition on_fetch (o : Outcome) (answer : JsError + Response) (s : State) (n : nat) : Run :=
  match o with
  | OnFetch _ k => exec clock (k answer) s n
  | _ => idle o s n
  end.

(** The [json()] promise a handler is suspended on settles. *)
Definition on_body (o : Outcome) (s : State) (n : nat) : Run :=
  match o with
  | OnJson r k => exec clock (k (resp_json r)) s n
  | _ => idle o s n
  end.

(** A whole call with nothing interleaved: the handler [p] is started,
    its [fetch] settles with [answer], and the body, if any, is decoded. *)
Definition settle_call (p : prog unit) (s : State) (n : nat)
    (answer : JsError + Response) : Run :=
  let r0 := exec clock p s n in
  let r1 := on_fetch (outcome r0) answer (store r0) (ticks r0) in
  on_body (outcome r1) (store r1) (ticks r1).

Definition user_message (s : State) (n : nat) : ChatMessage :=
  {| role := User; content := JStr (chatInput s); timestamp := clock n |}.

Definition assistant_message (text : json) (n : nat) : ChatMessage :=
  {| role := Assistant; content := text; timestamp := clock n |}.

(** The store once the synchronous part of [handleChat] has run. *)
Definition chat_sent (s : State) (n : nat) (s0 : State) : State :=
  apply_action (SetIsChatting true)
    (apply_action (SetChatInput js"")
       (apply_action (SetChatMessages (append_message (user_message s n))) s0)).

(** The store once [handleChat] has appended [text] as the reply. *)
Definition chat_replied (text : json) (n : nat) (s0 : State) : State :=
  apply_action (SetIsChatting false)
    (apply_action (SetChatMessages (append_message (assistant_message text n))) s0).

End Observations.

(** The content of the reply [handleChat] appends for a response body. *)
Definition chat_reply (body : JsError + json) : json :=
  match decoded body js"response" with
  | inl _ => JStr reply_failed
  | inr reply => or_else reply (JStr reply_missing)
  end.

(** The store once [handleSearch] has settled with [results]. *)
Definition search_settled (results : json) (s0 : State) : State :=
  apply_action (SetIsSearching false) (apply_action (SetSearchResults results) s0).

(** The result list [handleSearch] stores for a response body. *)
Definition search_shown (body : JsError + json) : json :=
  match decoded body js"results" with
  | inl _ => JArr []
  | inr results => or_else results (JArr [])
  end.

(** The stores of [handleSearchAndAnalyze]: both flags raised, the
    response shown, the failure shown. *)
Definition analyze_started (s0 : State) : State :=
  apply_action (SetIsAnalyzing true) (apply_action (SetIsSearching true) s0).

Definition analyze_shown (results text : json) (s0 : State) : State :=
  apply_action (SetIsAnalyzing false)
    (apply_action (SetIsSearching false)
       (apply_action (SetActiveTab js"analysis")
          (apply_action (SetAnalysis text)
             (apply_action (SetSearchResults results) s0)))).

Definition analyze_failed (s0 : State) : State :=
  apply_action (SetIsAnalyzing false)
    (apply_action (SetIsSearching false)
       (apply_action (SetAnalysis (JStr analysis_error))
          (apply_action (SetSearchResults (JArr [])) s0))).

Definition analyze_settled (body : JsError + json) (s0 : State) : State :=
  match decoded body js"search_results", decoded body js"analysis" with
  | inr results, inr text =>
      analyze_shown (or_else results (JArr [])) (or_else text (JStr js"")) s0
  | _, _ => analyze_failed s0
  end.

(** The status [checkAgentStatus] stores for a response body. *)
Definition probed (body : JsError + json) : json :=
  match body with
  | inl e => unhealthy e
  | inr data => data
  end.

(** A clock and a few inputs for the examples. *)
Definition epoch : nat -> jsstring := fun _ => js"1970-01-01T00:00:00.000Z".

Definition typed (text : jsstring) : State := apply_action (SetChatInput text) initial_state.

Definition queried (text : jsstring) : State := apply_action (SetSearchQuery text) initial_state.

Definition offline : JsError := {| err_message := js"Failed to fetch" |}.

Definition replying (data : json) : Response := {| resp_json := inr data |}.

Definition enter : KeyEvent := {| key := js"Enter"; shiftKey := false |}.

(** The store after one answered question, with a second one typed: the
    transcript holds a user message and a reply. *)
Definition second_turn : State :=
  apply_action (SetChatInput js"and of Spain?")
    (store (settle_call epoch (handleChat (typed js"capital of France?"))
              (typed js"capital of France?") 0
              (inr (replying (JObj [(js"response", JStr js"Paris")]))))).

(** ** Invariants of suspended handlers *)

(** [quota p b]: on every path [p] issues no status request and calls
    [setAgentStatus] at most [b] times. *)
Fixpoint quota (p : prog unit) (b : nat) : Prop :=
  match p with
  | Ret _ | Throw _ => True
  | Call (SetAgentStatus _) k =>
      match b with O => False | S b' => quota k b' end
  | Call _ k => quota k b
  | Now k => forall t, quota (k t) b
  | ConsoleError _ _ k => quota k b
  | AwaitFetch r k =>
      Js.eqb (req_url r) (req_url status_request) = false /\ forall x, quota (k x) b
  | AwaitJson _ k => forall x, quota (k x) b
  end.

(** [appending p]: every [setChatMessages] updater in [p] extends the
    transcript it is given. *)
Fixpoint appending (p : prog unit) : Prop :=
  match p with
  | Ret _ | Throw _ => True
  | Call (SetChatMessages updater) k =>
      (forall prev, prev `prefix_of` updater prev) /\ appending k
  | Call _ k => appending k
  | Now k => forall t, appending (k t)
  | ConsoleError _ _ k => appending k
  | AwaitFetch _ k => forall x, appending (k x)
  | AwaitJson _ k => forall x, appending (k x)
  end.

(** [careful p]: no exception escapes [p]. *)
Fixpoint careful (p : prog unit) : Prop :=
  match p with
  | Ret _ => True
  | Throw _ => False
  | Call _ k => careful k
  | Now k => forall t, careful (k t)
  | ConsoleError _ _ k => careful k
  | AwaitFetch _ k => forall x, careful (k x)
  | AwaitJson _ k => forall x, careful (k x)
  end.

Definition continuations (t : Pending) (P : prog unit -> Prop) : Prop :=
  match t with
  | PFetch _ k => forall x, P (k x)
  | PJson _ k => forall x, P (k x)
  end.

(** The programs a user action can start in a world whose store is [s]:
    the [onChange] setters, the three handlers (by click or by the Enter
    key), and nothing (any other key). *)
Inductive started (s : State) : prog unit -> Prop :=
| started_nothing : started s (Ret tt)
| started_query v : started s (call (SetSearchQuery v))
| started_tab v : started s (call (SetActiveTab v))
| started_input v : started s (call (SetChatInput v))
| started_search : started s (handleSearch s)
| started_analyze : started s (handleSearchAndAnalyze s)
| started_chat : started s (handleChat s).

(** The programs the settlement of a pending promise can resume. *)
Inductive resumed : Pending -> prog unit -> Prop :=
| resumed_fetch r k answer : resumed (PFetch r k) (k answer)
| resumed_body r k : resumed (PJson r k) (k (resp_json r)).

(** A world whose pending handlers can only extend the transcript. *)
Definition transcript_safe (w : World) : Prop :=
  Forall (fun t => continuations t appending) (w_pending w).

Fixpoint total (bs : list nat) : nat :=
  match bs with
  | [] => 0
  | b :: bs' => b + total bs'
  end.

(** A world in which the status request was issued once and the pending
    handlers together can call [setAgentStatus] at most once more, less
    the calls already made. *)
Definition probe_once (w : World) : Prop :=
  count is_status_request (w_log w) = 1
  /\ exists bs : list nat,
      Forall2 (fun t c => continuations t (fun q => quota q c)) (w_pending w) bs
      /\ count is_status_update (w_log w) + total bs <= 1.

(** ** What the render shows of the state *)

(** [agentStatus?.status]: [undefined] on [null] and on anything that is
    not an object. *)
Definition status_field (st : json) : option json :=
  match st with
  | JObj fields => own_field js"status" fields
  | _ => None
  end.

(** [agentStatus?.status === 'healthy'] *)
Definition is_healthy (st : json) : bool :=
  match status_field st with
  | Some (JStr t) => Js.eqb t js"healthy"
  | _ => false
  end.

(** The [variant] and the text of the status badge. *)
Definition badge_variant (st : json) : jsstring :=
  if is_healthy st then js"default" else js"destructive".

Definition badge_label (st : json) : jsstring :=
  if is_healthy st then js"Agent Online" else js"Agent Offline".

(** The body of the analysis tab, as its conditional selects it: the
    spinner while [isAnalyzing]; else, for a truthy [analysis], the
    block whose child is [{analysis}]; else the placeholder.  A child
    that is a string is a text; what React makes of a truthy child that
    is not a string (a number, [true], an array, an object) is React's
    and is not modelled: [PanelChild] only names the value handed over. *)
Inductive AnalysisPanel :=
| PanelAnalyzing
| PanelText (text : jsstring)
| PanelChild (child : json)
| PanelPlaceholder.

Definition analysis_panel (s : State) : AnalysisPanel :=
  if isAnalyzing s then PanelAnalyzing
  else if truthy (analysis s) then
    match analysis s with
    | JStr text => PanelText text
    | child => PanelChild child
    end
  else PanelPlaceholder.

(** More inputs for the examples: a world with no handler pending, a
    response with two results, a chat that fails after the probe did. *)
Definition at_rest (s : State) : World :=
  {| w_store := s; w_ticks := 0; w_pending := []; w_log := [] |}.

Definition two_results : Response :=
  replying (JObj [(js"results", JArr [JStr js"first"; JStr js"second"])]).

Definition failed_chat : list Input :=
  [ChangeChatInput js"hello"; KeyPressChat enter;
   FetchSettles 0 (inl offline); FetchSettles 0 (inl offline)].

(** ** Cells of the three regions *)

Definition search_cells (s : State) : json * bool := (searchResults s, isSearching s).

Definition analysis_cells (s : State) : json * bool * jsstring :=
  (analysis s, isAnalyzing s, activeTab s).

Definition chat_cells (s : State) : list ChatMessage * jsstring * bool :=
  (chatMessages s, chatInput s, isChatting s).

(** ** More invariants of suspended handlers *)

Definition is_rejection (e : Event) : bool :=
  match e with EvUnhandledRejection _ => true | _ => false end.

(** The four calls the component makes: a GET without body to the status
    endpoint, a POST with a body to the search, search-and-analyze and
    chat endpoints. *)
Definition known_endpoint (r : Request) : bool :=
  match req_method r, req_body r with
  | GET, None => Js.eqb (req_url r) (API_BASE ++ js"/agent/status")
  | POST, Some _ =>
      Js.eqb (req_url r) (API_BASE ++ js"/agent/search")
      || Js.eqb (req_url r) (API_BASE ++ js"/agent/search-and-analyze")
      || Js.eqb (req_url r) (API_BASE ++ js"/agent/chat")
  | _, _ => false
  end.

Definition no_rejection (e : Event) : bool := negb (is_rejection e).

Definition to_known_endpoint (e : Event) : bool :=
  match e with
  | EvRequest r => known_endpoint r
  | _ => true
  end.

(** [emits P p]: every event [p] can log, the exception it may end with
    included, satisfies [P]. *)
Fixpoint emits (P : Event -> bool) (p : prog unit) : Prop :=
  match p with
  | Ret _ => True
  | Throw e => P (EvUnhandledRejection e) = true
  | Call a k => P (EvCall a) = true /\ emits P k
  | Now k => forall t, emits P (k t)
  | ConsoleError l e k => P (EvConsoleError l e) = true /\ emits P k
  | AwaitFetch r k => P (EvRequest r) = true /\ forall x, emits P (k x)
  | AwaitJson _ k => forall x, emits P (k x)
  end.

Definition is_user (m : ChatMessage) : bool :=
  match role m with User => true | Assistant => false end.

Definition is_assistant (m : ChatMessage) : bool :=
  match role m with User => false | Assistant => true end.

Definition users (l : list ChatMessage) : nat := length (List.filter is_user l).

Definition assistants (l : list ChatMessage) : nat := length (List.filter is_assistant l).

(** [owes p n]: on every path [p] calls [setChatMessages] exactly [n]
    times, each time to append one message of role assistant. *)
Fixpoint owes (p : prog unit) (n : nat) : Prop :=
  match p with
  | Ret _ | Throw _ => n = 0
  | Call (SetChatMessages updater) k =>
      match n with
      | O => False
      | S n' =>
          (exists m, role m = Assistant /\ forall prev, updater prev = prev ++ [m])
          /\ owes k n'
      end
  | Call _ k => owes k n
  | Now k => forall t, owes (k t) n
  | ConsoleError _ _ k => owes k n
  | AwaitFetch _ k => forall x, owes (k x) n
  | AwaitJson _ k => forall x, owes (k x) n
  end.

(** [stamps p reading]: [p] reads the clock once for every message it
    appends, right before appending it, and gives the message that
    reading as its timestamp; [reading] is the reading not yet used. *)
Fixpoint stamps (p : prog unit) (reading : option jsstring) : Prop :=
  match p with
  | Ret _ | Throw _ => reading = None
  | Call (SetChatMessages updater) k =>
      match reading with
      | Some t =>
          (exists m, timestamp m = t /\ forall prev, updater prev = prev ++ [m])
          /\ stamps k None
      | None => False
      end
  | Call _ k => stamps k reading
  | Now k => reading = None /\ forall t, stamps (k t) (Some t)
  | ConsoleError _ _ k => stamps k reading
  | AwaitFetch _ k => reading = None /\ forall x, stamps (k x) None
  | AwaitJson _ k => reading = None /\ forall x, stamps (k x) None
  end.



(** A world whose pending chat calls account for the user messages that
    have no reply yet. *)
Definition balanced (w : World) : Prop :=
  exists bs : list nat,
    Forall2 (fun t c => continuations t (fun q => owes q c)) (w_pending w) bs
    /\ users (chatMessages (w_store w))
       = assistants (chatMessages (w_store w)) + total bs.

Section Stamping.

Variable clock : nat -> jsstring.

(** A transcript whose [i]-th message carries the [i]-th clock reading. *)
Definition in_clock_order (l : list ChatMessage) : Prop :=
  forall i m, l !! i = Some m -> timestamp m = clock i.

Definition clocked (w : World) : Prop :=
  w_ticks w = length (chatMessages (w_store w))
  /\ in_clock_order (chatMessages (w_store w))
  /\ Forall (fun t => continuations t (fun q => stamps q None)) (w_pending w).

End Stamping.

(** * Properties *)

Section Properties.

Variable clock : nat -> jsstring.

Ltac run := cbn -[apply_action]; try reflexivity.

Ltac enter_handler h Hb :=
  unfold h;
  match type of Hb with blank ?v = _ => fold (blank v); rewrite Hb end.

(** ** The handlers, segment by segment *)

Lemma handleChat_blank s s0 n :
  blank (chatInput s) = true ->
  exec clock (handleChat s) s0 n = idle Finished s0 n.
Proof. intros Hb. enter_handler handleChat Hb. reflexivity. Qed.

Lemma handleChat_sync s s0 n :
  blank (chatInput s) = false ->
  exists k,
    exec clock (handleChat s) s0 n =
      {| outcome := OnFetch (chat_request s) k;
         store := chat_sent clock s n s0;
         ticks := S n;
         events := [EvCall (SetChatMessages (append_message (user_message clock s n)));
                    EvCall (SetChatInput js"");
                    EvCall (SetIsChatting true);
                    EvRequest (chat_request s)] |}.
Proof. intros Hb. enter_handler handleChat Hb. eexists. run. Qed.

Lemma handleChat_fetch_rejected s s0 n e s1 n1 :
  blank (chatInput s) = false ->
  on_fetch clock (outcome (exec clock (handleChat s) s0 n)) (inl e) s1 n1 =
    {| outcome := Finished;
       store := chat_replied clock (JStr reply_failed) n1 s1;
       ticks := S n1;
       events := [EvConsoleError js"Error in chat:" e;
                  EvCall (SetChatMessages
                            (append_message (assistant_message clock (JStr reply_failed) n1)));
                  EvCall (SetIsChatting false)] |}.
Proof. intros Hb. enter_handler handleChat Hb. run. Qed.

Lemma handleChat_fetch_resolved s s0 n resp s1 n1 :
  blank (chatInput s) = false ->
  exists k,
    on_fetch clock (outcome (exec clock (handleChat s) s0 n)) (inr resp) s1 n1 =
      idle (OnJson resp k) s1 n1.
Proof. intros Hb. enter_handler handleChat Hb. eexists. run. Qed.

Lemma handleChat_body s s0 n resp s1 n1 s2 n2 :
  blank (chatInput s) = false ->
  on_body clock
    (outcome (on_fetch clock (outcome (exec clock (handleChat s) s0 n)) (inr resp) s1 n1))
    s2 n2 =
    {| outcome := Finished;
       store := chat_replied clock (chat_reply (resp_json resp)) n2 s2;
       ticks := S n2;
       events := failure_log js"Error in chat:" (resp_json resp) js"response" ++
                 [EvCall (SetChatMessages
                            (append_message
                               (assistant_message clock (chat_reply (resp_json resp)) n2)));
                  EvCall (SetIsChatting false)] |}.
Proof.
  intros Hb. enter_handler handleChat Hb. unfold chat_reply, failure_log.
  cbn -[apply_action decoded].
  destruct (resp_json resp) as [e|data]; [run|].
  destruct data; run.
Qed.

Lemma handleSearch_blank s s0 n :
  blank (searchQuery s) = true ->
  exec clock (handleSearch s) s0 n = idle Finished s0 n.
Proof. intros Hb. enter_handler handleSearch Hb. reflexivity. Qed.

Lemma handleSearch_sync s s0 n :
  blank (searchQuery s) = false ->
  exists k,
    exec clock (handleSearch s) s0 n =
      {| outcome := OnFetch (search_request s) k;
         store := apply_action (SetIsSearching true) s0;
         ticks := n;
         events := [EvCall (SetIsSearching true); EvRequest (search_request s)] |}.
Proof. intros Hb. enter_handler handleSearch Hb. eexists. run. Qed.

Lemma handleSearch_fetch_rejected s s0 n e s1 n1 :
  blank (searchQuery s) = false ->
  on_fetch clock (outcome (exec clock (handleSearch s) s0 n)) (inl e) s1 n1 =
    {| outcome := Finished;
       store := search_settled (JArr []) s1;
       ticks := n1;
       events := [EvConsoleError js"Error searching:" e;
                  EvCall (SetSearchResults (JArr []));
                  EvCall (SetIsSearching false)] |}.
Proof. intros Hb. enter_handler handleSearch Hb. run. Qed.

Lemma handleSearch_fetch_resolved s s0 n resp s1 n1 :
  blank (searchQuery s) = false ->
  exists k,
    on_fetch clock (outcome (exec clock (handleSearch s) s0 n)) (inr resp) s1 n1 =
      idle (OnJson resp k) s1 n1.
Proof. intros Hb. enter_handler handleSearch Hb. eexists. run. Qed.

Lemma handleSearch_body s s0 n resp s1 n1 s2 n2 :
  blank (searchQuery s) = false ->
  on_body clock
    (outcome (on_fetch clock (outcome (exec clock (handleSearch s) s0 n)) (inr resp) s1 n1))
    s2 n2 =
    {| outcome := Finished;
       store := search_settled (search_shown (resp_json resp)) s2;
       ticks := n2;
       events := failure_log js"Error searching:" (resp_json resp) js"results" ++
                 [EvCall (SetSearchResults (search_shown (resp_json resp)));
                  EvCall (SetIsSearching false)] |}.
Proof.
  intros Hb. enter_handler handleSearch Hb. unfold search_shown, failure_log.
  cbn -[apply_action decoded].
  destruct (resp_json resp) as [e|data]; [run|].
  destruct data; run.
Qed.

Lemma handleAnalyze_blank s s0 n :
  blank (searchQuery s) = true ->
  exec clock (handleSearchAndAnalyze s) s0 n = idle Finished s0 n.
Proof. intros Hb. enter_handler handleSearchAndAnalyze Hb. reflexivity. Qed.

Lemma handleAnalyze_sync s s0 n :
  blank (searchQuery s) = false ->
  exists k,
    exec clock (handleSearchAndAnalyze s) s0 n =
      {| outcome := OnFetch (analyze_request s) k;
         store := analyze_started s0;
         ticks := n;
         events := [EvCall (SetIsSearching true); EvCall (SetIsAnalyzing true);
                    EvRequest (analyze_request s)] |}.
Proof. intros Hb. enter_handler handleSearchAndAnalyze Hb. eexists. run. Qed.

Lemma handleAnalyze_fetch_rejected s s0 n e s1 n1 :
  blank (searchQuery s) = false ->
  on_fetch clock (outcome (exec clock (handleSearchAndAnalyze s) s0 n)) (inl e) s1 n1 =
    {| outcome := Finished;
       store := analyze_failed s1;
       ticks := n1;
       events := [EvConsoleError js"Error in search and analyze:" e;
                  EvCall (SetSearchResults (JArr []));
                  EvCall (SetAnalysis (JStr analysis_error));
                  EvCall (SetIsSearching false); EvCall (SetIsAnalyzing false)] |}.
Proof. intros Hb. enter_handler handleSearchAndAnalyze Hb. run. Qed.

Lemma handleAnalyze_fetch_resolved s s0 n resp s1 n1 :
  blank (searchQuery s) = false ->
  exists k,
    on_fetch clock (outcome (exec clock (handleSearchAndAnalyze s) s0 n)) (inr resp) s1 n1 =
      idle (OnJson resp k) s1 n1.
Proof. intros Hb. enter_handler handleSearchAndAnalyze Hb. eexists. run. Qed.

Lemma handleAnalyze_body s s0 n resp s1 n1 s2 n2 :
  blank (searchQuery s) = false ->
  let r :=
    on_body clock
      (outcome (on_fetch clock (outcome (exec clock (handleSearchAndAnalyze s) s0 n))
                  (inr resp) s1 n1))
      s2 n2 in
  outcome r = Finished /\
  store r = analyze_settled (resp_json resp) s2 /\
  ticks r = n2 /\
  count is_request (events r) = 0.
Proof.
  intros Hb. enter_handler handleSearchAndAnalyze Hb. unfold analyze_settled.
  cbn -[apply_action decoded].
  destruct (resp_json resp) as [e|data]; [now run|].
  destruct data; now run.
Qed.

Lemma checkAgentStatus_sync s0 n :
  exists k,
    exec clock checkAgentStatus s0 n =
      {| outcome := OnFetch status_request k; store := s0; ticks := n;
         events := [EvRequest status_request] |}.
Proof. eexists. run. Qed.

Lemma checkAgentStatus_fetch_rejected s0 n e s1 n1 :
  on_fetch clock (outcome (exec clock checkAgentStatus s0 n)) (inl e) s1 n1 =
    {| outcome := Finished;
       store := apply_action (SetAgentStatus (unhealthy e)) s1;
       ticks := n1;
       events := [EvConsoleError js"Error checking agent status:" e;
                  EvCall (SetAgentStatus (unhealthy e))] |}.
Proof. run. Qed.

Lemma checkAgentStatus_fetch_resolved s0 n resp s1 n1 :
  exists k,
    on_fetch clock (outcome (exec clock checkAgentStatus s0 n)) (inr resp) s1 n1 =
      idle (OnJson resp k) s1 n1.
Proof. eexists. run. Qed.

Lemma checkAgentStatus_body s0 n resp s1 n1 s2 n2 :
  on_body clock
    (outcome (on_fetch clock (outcome (exec clock checkAgentStatus s0 n)) (inr resp) s1 n1))
    s2 n2 =
    {| outcome := Finished;
       store := apply_action (SetAgentStatus (probed (resp_json resp))) s2;
       ticks := n2;
       events := match resp_json resp with
                 | inl e => [EvConsoleError js"Error checking agent status:" e]
                 | inr _ => []
                 end ++ [EvCall (SetAgentStatus (probed (resp_json resp)))] |}.
Proof.
  cbn -[apply_action]. destruct (resp_json resp) as [e|data]; run.
Qed.


(** ** Sessions *)

Lemma deliver_cases i w :
  deliver clock i w = w
  \/ (exists p, started (w_store w) p /\ deliver clock i w = launch clock p w)
  \/ (exists j t p, w_pending w !! j = Some t /\ resumed t p
                    /\ deliver clock i w = launch clock p (forget j w)).
Proof.
  destruct i; cbn.
  - right; left; eexists; split; [constructor|reflexivity].
  - right; left. unfold handleKeyPress.
    destruct (Js.eqb (key e) js"Enter" && negb (shiftKey e));
      eexists; (split; [constructor|reflexivity]).
  - destruct (search_disabled (w_store w)); [now left|].
    right; left; eexists; split; [constructor|reflexivity].
  - destruct (analyze_disabled (w_store w)); [now left|].
    right; left; eexists; split; [constructor|reflexivity].
  - right; left; eexists; split; [constructor|reflexivity].
  - right; left; eexists; split; [constructor|reflexivity].
  - right; left. unfold handleKeyPress.
    destruct (Js.eqb (key e) js"Enter" && negb (shiftKey e));
      eexists; (split; [constructor|reflexivity]).
  - destruct (send_disabled (w_store w)); [now left|].
    right; left; eexists; split; [constructor|reflexivity].
  - destruct (w_pending w !! i) as [[r k|r k]|] eqn:Hi; try now left.
    right; right. exists i, (PFetch r k), (k answer). repeat split; [assumption|constructor].
  - destruct (w_pending w !! i) as [[r k|r k]|] eqn:Hi; try now left.
    right; right. exists i, (PJson r k), (k (resp_json r)). repeat split; [assumption|constructor].
Qed.

Lemma session_cons i ins w :
  session clock (i :: ins) w = session clock ins (deliver clock i w).
Proof. reflexivity. Qed.

Lemma session_app ins1 ins2 w :
  session clock (ins1 ++ ins2) w = session clock ins2 (session clock ins1 w).
Proof. unfold session. apply fold_left_app. Qed.

(** Settling a pending promise in a world is [on_fetch] or [on_body] on
    the store the world has reached by then. *)
Lemma deliver_fetch_settles i r k answer w :
  w_pending w !! i = Some (PFetch r k) ->
  w_store (deliver clock (FetchSettles i answer) w)
  = store (on_fetch clock (OnFetch r k) answer (w_store w) (w_ticks w)).
Proof. intros Hi. cbn [deliver]. now rewrite Hi. Qed.

Lemma deliver_body_settles i r k w :
  w_pending w !! i = Some (PJson r k) ->
  w_store (deliver clock (BodySettles i) w)
  = store (on_body clock (OnJson r k) (w_store w) (w_ticks w)).
Proof. intros Hi. cbn [deliver]. now rewrite Hi. Qed.

(** *** The transcript only grows *)

Lemma exec_appending p s n :
  appending p ->
  chatMessages s `prefix_of` chatMessages (store (exec clock p s n))
  /\ Forall (fun t => continuations t appending) (suspended (outcome (exec clock p s n))).
Proof.
  revert s n. induction p as [a|e|a k IH|k IH|l e k IH|r k IH|r k IH]; intros s n Hp; cbn.
  - split; [reflexivity|constructor].
  - split; [reflexivity|constructor].
  - destruct a; cbn in Hp; try exact (IH (apply_action _ s) n Hp).
    destruct Hp as [Hu Hk].
    destruct (IH (apply_action (SetChatMessages updater) s) n Hk) as [Hpre Hall].
    split; [|exact Hall]. etrans; [apply Hu|exact Hpre].
  - apply IH, Hp.
  - apply IH, Hp.
  - split; [reflexivity|]. repeat constructor. exact Hp.
  - split; [reflexivity|]. repeat constructor. exact Hp.
Qed.

Lemma started_appending s p : started s p -> appending p.
Proof.
  destruct 1; cbn; auto.
  - unfold handleSearch. destruct (negb _); cbn; [exact I|].
    intros [e|resp]; cbn; [exact I|].
    intros [e|data]; cbn; [exact I|]. destruct data; cbn; exact I.
  - unfold handleSearchAndAnalyze. destruct (negb _); cbn; [exact I|].
    intros [e|resp]; cbn; [exact I|].
    intros [e|data]; cbn; [exact I|]. destruct data; cbn; exact I.
  - unfold handleChat. destruct (negb _); cbn; [exact I|].
    intros t. split; [intros prev; now apply prefix_app_r|].
    intros [e|resp]; cbn.
    { intros t'. split; [intros prev; now apply prefix_app_r|exact I]. }
    intros [e|data]; cbn.
    { intros t'. split; [intros prev; now apply prefix_app_r|exact I]. }
    destruct data; cbn; intros t'; (split; [intros prev; now apply prefix_app_r|exact I]).
Qed.

Lemma resumed_appending w j t p :
  transcript_safe w -> w_pending w !! j = Some t -> resumed t p -> appending p.
Proof.
  intros Hw Hj Hr. pose proof (Forall_lookup_1 _ _ _ _ Hw Hj) as Ht.
  destruct Hr; cbn in Ht; apply Ht.
Qed.

Lemma launch_appending p w :
  appending p -> transcript_safe w ->
  chatMessages (w_store w) `prefix_of` chatMessages (w_store (launch clock p w))
  /\ transcript_safe (launch clock p w).
Proof.
  intros Hp Hw.
  destruct (exec_appending p (w_store w) (w_ticks w) Hp) as [Hpre Hall].
  split; [exact Hpre|]. unfold transcript_safe; cbn. apply Forall_app; split; assumption.
Qed.

Lemma deliver_appending i w :
  transcript_safe w ->
  chatMessages (w_store w) `prefix_of` chatMessages (w_store (deliver clock i w))
  /\ transcript_safe (deliver clock i w).
Proof.
  intros Hw.
  destruct (deliver_cases i w) as [->|[(p & Hs & ->)|(j & t & p & Hj & Hr & ->)]].
  - split; [reflexivity|exact Hw].
  - apply launch_appending; [eapply started_appending; eassumption|exact Hw].
  - apply (launch_appending p (forget j w)).
    + eapply resumed_appending; eassumption.
    + unfold transcript_safe; cbn. now apply Forall_delete.
Qed.

Lemma session_appending ins w :
  transcript_safe w ->
  chatMessages (w_store w) `prefix_of` chatMessages (w_store (session clock ins w))
  /\ transcript_safe (session clock ins w).
Proof.
  revert w. induction ins as [|i ins IH]; intros w Hw; cbn.
  - split; [reflexivity|exact Hw].
  - destruct (deliver_appending i w Hw) as [H1 H2].
    destruct (IH _ H2) as [H3 H4]. split; [|exact H4]. etrans; eassumption.
Qed.

Lemma mounted_transcript_safe : transcript_safe (mounted clock).
Proof.
  unfold transcript_safe; cbn. repeat constructor.
  intros [e|resp]; cbn; [exact I|]. intros [e|data]; cbn; exact I.
Qed.


(** *** The status probe runs once *)

Lemma count_app f evs1 evs2 : count f (evs1 ++ evs2) = count f evs1 + count f evs2.
Proof. unfold count. now rewrite List.filter_app, length_app. Qed.

Lemma count_escaped_update o : count is_status_update (escaped o) = 0.
Proof. now destruct o. Qed.

Lemma count_escaped_request o : count is_status_request (escaped o) = 0.
Proof. now destruct o. Qed.

Lemma total_app bs cs : total (bs ++ cs) = total bs + total cs.
Proof. induction bs as [|c bs IH]; cbn; [reflexivity|]. rewrite IH. lia. Qed.

Lemma total_delete (bs : list nat) j b :
  bs !! j = Some b -> total (delete j bs) + b = total bs.
Proof.
  revert j. induction bs as [|c bs IH]; intros [|j] Hj; try discriminate.
  - injection Hj as ->. cbn. lia.
  - change (c + total (delete j bs) + b = c + total bs).
    rewrite <- (IH j Hj). lia.
Qed.

Lemma exec_quota p b s n :
  quota p b ->
  count is_status_request (events (exec clock p s n)) = 0
  /\ exists used bs,
      used + total bs <= b
      /\ count is_status_update (events (exec clock p s n)) = used
      /\ Forall2 (fun t c => continuations t (fun q => quota q c))
           (suspended (outcome (exec clock p s n))) bs.
Proof.
  revert b s n.
  induction p as [a|e|a k IH|k IH|l e k IH|r k IH|r k IH]; intros b s n Hp.
  - split; [reflexivity|]. exists 0, []. repeat split; [cbn; lia|constructor].
  - split; [reflexivity|]. exists 0, []. repeat split; [cbn; lia|constructor].
  - destruct a; cbn in Hp;
      lazymatch goal with
      | |- context [Call (SetAgentStatus _) _] => idtac
      | |- context [Call ?a _] => exact (IH b (apply_action a s) n Hp)
      end.
    destruct b as [|b]; [contradiction|].
    destruct (IH b (apply_action (SetAgentStatus v) s) n Hp)
      as (Hr & used & bs & Hle & Hu & Hall).
    split; [exact Hr|]. exists (S used), bs. repeat split; [lia| |exact Hall].
    cbn. unfold count in Hu. cbn in Hu. now rewrite Hu.
  - cbn. apply IH, Hp.
  - cbn. apply IH, Hp.
  - destruct Hp as [Hurl Hk]. split.
    + change (count is_status_request [EvRequest r] = 0).
      unfold count, List.filter, is_status_request. now rewrite Hurl.
    + exists 0, [b]. repeat split; [cbn; lia|]. repeat constructor. exact Hk.
  - cbn. split; [reflexivity|].
    exists 0, [b]. repeat split; [cbn; lia|]. repeat constructor. exact Hp.
Qed.

Lemma started_quota s p : started s p -> quota p 0.
Proof.
  destruct 1; cbn; auto.
  - unfold handleSearch. destruct (negb _); cbn; [exact I|].
    split; [reflexivity|]. intros [e|resp]; cbn; [exact I|].
    intros [e|data]; cbn; [exact I|]. destruct data; cbn; exact I.
  - unfold handleSearchAndAnalyze. destruct (negb _); cbn; [exact I|].
    split; [reflexivity|]. intros [e|resp]; cbn; [exact I|].
    intros [e|data]; cbn; [exact I|]. destruct data; cbn; exact I.
  - unfold handleChat. destruct (negb _); cbn; [exact I|].
    intros t. split; [reflexivity|]. intros [e|resp]; cbn; [intros; exact I|].
    intros [e|data]; cbn; [intros; exact I|]. destruct data; cbn; intros; exact I.
Qed.

Lemma launch_probe p b w bs :
  quota p b ->
  Forall2 (fun t c => continuations t (fun q => quota q c)) (w_pending w) bs ->
  count is_status_request (w_log (launch clock p w)) = count is_status_request (w_log w)
  /\ exists bs',
      Forall2 (fun t c => continuations t (fun q => quota q c))
        (w_pending (launch clock p w)) bs'
      /\ count is_status_update (w_log (launch clock p w)) + total bs'
         <= count is_status_update (w_log w) + total bs + b.
Proof.
  intros Hp Hbs.
  destruct (exec_quota p b (w_store w) (w_ticks w) Hp) as (Hr & used & cs & Hle & Hu & Hall).
  unfold launch; cbn [w_log w_pending].
  rewrite !count_app, Hr, Hu, count_escaped_request, count_escaped_update.
  split; [lia|]. exists (bs ++ cs). split; [now apply Forall2_app|].
  rewrite total_app. lia.
Qed.

Lemma deliver_probe_once i w : probe_once w -> probe_once (deliver clock i w).
Proof.
  intros (Hreq & bs & Hbs & Hsum).
  destruct (deliver_cases i w) as [->|[(p & Hs & ->)|(j & t & p & Hj & Hr & ->)]].
  - split; [exact Hreq|]. now exists bs.
  - destruct (launch_probe p 0 w bs (started_quota _ _ Hs) Hbs) as (H1 & bs' & H2 & H3).
    split; [now rewrite H1|]. exists bs'. split; [exact H2|lia].
  - destruct (Forall2_lookup_l _ _ _ _ _ Hbs Hj) as (b & Hb & Ht).
    assert (Hq : quota p b) by (destruct Hr; cbn in Ht; apply Ht).
    assert (Hdel : Forall2 (fun t c => continuations t (fun q => quota q c))
                     (w_pending (forget j w)) (delete j bs))
      by (cbn [forget w_pending]; now apply Forall2_delete).
    destruct (launch_probe p b (forget j w) (delete j bs) Hq Hdel) as (H1 & bs' & H2 & H3).
    split; [rewrite H1; exact Hreq|]. exists bs'. split; [exact H2|].
    cbn [forget w_log] in H3. pose proof (total_delete bs j b Hb). lia.
Qed.

Lemma session_probe_once ins w : probe_once w -> probe_once (session clock ins w).
Proof.
  revert w. induction ins as [|i ins IH]; intros w Hw; cbn; [exact Hw|].
  apply IH, deliver_probe_once, Hw.
Qed.

Lemma mounted_probe_once : probe_once (mounted clock).
Proof.
  split; [reflexivity|]. exists [1]. split; [|cbn; lia].
  repeat constructor. intros [e|resp]; cbn; [exact I|]. intros [e|data]; cbn; exact I.
Qed.

Lemma deliver_log i w : exists evs, w_log (deliver clock i w) = w_log w ++ evs.
Proof.
  destruct (deliver_cases i w) as [->|[(p & Hs & ->)|(j & t & p & Hj & Hr & ->)]].
  - exists []. now rewrite app_nil_r.
  - eexists. reflexivity.
  - eexists. reflexivity.
Qed.

Lemma session_log ins w : exists evs, w_log (session clock ins w) = w_log w ++ evs.
Proof.
  revert w. induction ins as [|i ins IH]; intros w.
  - exists []. cbn. now rewrite app_nil_r.
  - rewrite session_cons. destruct (deliver_log i w) as [evs1 H1]. destruct (IH (deliver clock i w)) as [evs2 H2].
    exists (evs1 ++ evs2). now rewrite H2, H1, app_assoc.
Qed.

Lemma exec_status_frame p s n :
  count is_status_update (events (exec clock p s n)) = 0 ->
  agentStatus (store (exec clock p s n)) = agentStatus s.
Proof.
  revert s n. induction p as [a|e|a k IH|k IH|l e k IH|r k IH|r k IH]; intros s n; cbn;
    try reflexivity; try (apply IH).
  destruct a; try exact (IH (apply_action _ s) n).
  unfold count; cbn. discriminate.
Qed.

Lemma deliver_status_frame i w :
  count is_status_update (w_log (deliver clock i w)) = count is_status_update (w_log w) ->
  agentStatus (w_store (deliver clock i w)) = agentStatus (w_store w).
Proof.
  destruct (deliver_cases i w) as [->|[(p & Hs & ->)|(j & t & p & Hj & Hr & ->)]];
    [reflexivity| |]; unfold launch; cbn [w_log w_store forget]; rewrite !count_app; intros Hc;
    apply exec_status_frame; lia.
Qed.

Lemma session_status_frame ins w :
  probe_once w -> count is_status_update (w_log w) = 1 ->
  agentStatus (w_store (session clock ins w)) = agentStatus (w_store w).
Proof.
  revert w. induction ins as [|i ins IH]; intros w Hw Hc; [reflexivity|].
  rewrite session_cons. pose proof (deliver_probe_once i w Hw) as Hw'.
  destruct (deliver_log i w) as [evs Hlog].
  assert (Hc' : count is_status_update (w_log (deliver clock i w)) = 1).
  { destruct Hw' as (_ & bs & _ & Hsum). rewrite Hlog, count_app in *. lia. }
  rewrite (IH _ Hw' Hc'). apply deliver_status_frame. lia.
Qed.

(** ** The chat region *)

(** C1 (as amended).  When the submitted text is not blank, [handleChat]
    calls [setChatMessages] with the user's message, then clears the
    input and raises the busy flag, and only then issues the chat
    request; at that point the transcript ends with the user's message
    and holds no reply.  The reply is appended in the segment that runs
    once the request has settled: at once when [fetch] rejects, and
    after the body has been decoded when it resolves (nothing happens in
    between).  This holds whatever the store has become meanwhile. *)
Theorem chat_user_message_precedes_request s n :
  blank (chatInput s) = false ->
  let r0 := exec clock (handleChat s) s n in
  events r0 = [EvCall (SetChatMessages (append_message (user_message clock s n)));
               EvCall (SetChatInput js"");
               EvCall (SetIsChatting true);
               EvRequest (chat_request s)]
  /\ chatMessages (store r0) = chatMessages s ++ [user_message clock s n]
  /\ (exists k, outcome r0 = OnFetch (chat_request s) k)
  /\ forall answer s1 n1,
      let r1 := on_fetch clock (outcome r0) answer s1 n1 in
      match answer with
      | inl e =>
          events r1 = [EvConsoleError js"Error in chat:" e;
                       EvCall (SetChatMessages
                                 (append_message
                                    (assistant_message clock (JStr reply_failed) n1)));
                       EvCall (SetIsChatting false)]
          /\ outcome r1 = Finished
      | inr resp =>
          events r1 = [] /\ store r1 = s1
          /\ forall s2 n2,
              let r2 := on_body clock (outcome r1) s2 n2 in
              events r2 =
                failure_log js"Error in chat:" (resp_json resp) js"response" ++
                [EvCall (SetChatMessages
                           (append_message
                              (assistant_message clock (chat_reply (resp_json resp)) n2)));
                 EvCall (SetIsChatting false)]
              /\ outcome r2 = Finished
      end.
Proof.
  intros Hb. cbn zeta.
  destruct (handleChat_sync s s n Hb) as [k Hk].
  split; [now rewrite Hk|]. split; [now rewrite Hk|]. split; [exists k; now rewrite Hk|].
  intros [e|resp] s1 n1.
  - rewrite (handleChat_fetch_rejected s s n e s1 n1 Hb). now split.
  - destruct (handleChat_fetch_resolved s s n resp s1 n1 Hb) as [k2 Hk2].
    split; [now rewrite Hk2|]. split; [now rewrite Hk2|].
    intros s2 n2. rewrite (handleChat_body s s n resp s1 n1 s2 n2 Hb). now split.
Qed.

Lemma chat_reply_text data text :
  text <> [] ->
  get_prop data js"response" = inr (Some (JStr text)) ->
  chat_reply (inr data) = JStr text.
Proof.
  intros Ht Hp. unfold chat_reply; cbn -[get_prop]. rewrite Hp. cbn.
  destruct text; [contradiction|reflexivity].
Qed.

Lemma chat_reply_missing data :
  get_prop data js"response" = inr None ->
  chat_reply (inr data) = JStr reply_missing.
Proof. intros Hp. unfold chat_reply; cbn -[get_prop]. now rewrite Hp. Qed.

(** C2 (as amended).  When the submitted text is not blank, the
    submission appends the user's message, and its settlement makes
    exactly one more [setChatMessages] call, which appends one message of
    role assistant: with the literal [reply_failed] when [fetch] rejects,
    the body is not JSON or is [null]; with the [response] field when it
    is a non-empty string; with the literal [reply_missing] when the
    field is absent.  A submission that nothing interleaves with grows
    the transcript by two messages. *)
Theorem chat_reply_appended_once s n answer s1 n1 s2 n2 :
  blank (chatInput s) = false ->
  let r0 := exec clock (handleChat s) s n in
  let r1 := on_fetch clock (outcome r0) answer s1 n1 in
  let r2 := on_body clock (outcome r1) s2 n2 in
  chatMessages (store r0) = chatMessages s ++ [user_message clock s n]
  /\ count is_append (events r0) = 1
  /\ count is_append (events r1 ++ events r2) = 1
  /\ outcome r2 = Finished
  /\ match answer with
     | inl _ =>
         chatMessages (store r1) =
           chatMessages s1 ++ [assistant_message clock (JStr reply_failed) n1]
     | inr resp =>
         chatMessages (store r1) = chatMessages s1
         /\ chatMessages (store r2) =
              chatMessages s2 ++ [assistant_message clock (chat_reply (resp_json resp)) n2]
     end
  /\ (forall e, chat_reply (inl e) = JStr reply_failed)
  /\ chat_reply (inr JNull) = JStr reply_failed
  /\ (forall data text,
        text <> [] -> get_prop data js"response" = inr (Some (JStr text)) ->
        chat_reply (inr data) = JStr text)
  /\ (forall data,
        get_prop data js"response" = inr None ->
        chat_reply (inr data) = JStr reply_missing)
  /\ (s1 = store r0 -> s2 = store r1 ->
      length (chatMessages (store r2)) = length (chatMessages s) + 2).
Proof.
  intros Hb. cbn zeta.
  destruct (handleChat_sync s s n Hb) as [k Hk].
  assert (H0 : chatMessages (store (exec clock (handleChat s) s n)) =
               chatMessages s ++ [user_message clock s n]) by now rewrite Hk.
  split; [exact H0|]. split; [now rewrite Hk|].
  assert (Htail : (forall e, chat_reply (inl e) = JStr reply_failed)
                  /\ chat_reply (inr JNull) = JStr reply_failed
                  /\ (forall data text,
                        text <> [] -> get_prop data js"response" = inr (Some (JStr text)) ->
                        chat_reply (inr data) = JStr text)
                  /\ (forall data,
                        get_prop data js"response" = inr None ->
                        chat_reply (inr data) = JStr reply_missing)).
  { split; [reflexivity|]. split; [reflexivity|].
    split; [exact chat_reply_text|exact chat_reply_missing]. }
  destruct answer as [e|resp].
  - rewrite (handleChat_fetch_rejected s s n e s1 n1 Hb). cbn -[apply_action count].
    split; [reflexivity|]. split; [reflexivity|]. split; [unfold chat_replied; cbn; reflexivity|].
    destruct Htail as (T1 & T2 & T3 & T4). repeat (split; [assumption|]).
    intros -> ->. unfold chat_replied, append_message; cbn [apply_action chatMessages store].
    rewrite length_app, H0, length_app; cbn. lia.
  - pose proof (handleChat_body s s n resp s1 n1 s2 n2 Hb) as Hbody.
    destruct (handleChat_fetch_resolved s s n resp s1 n1 Hb) as [k2 Hk2].
    rewrite Hbody. rewrite Hk2. cbn -[apply_action count failure_log chat_reply].
    split.
    { unfold failure_log. destruct (decoded _ _); reflexivity. }
    split; [reflexivity|]. split; [split; reflexivity|].
    destruct Htail as (T1 & T2 & T3 & T4). repeat (split; [assumption|]).
    intros -> ->. unfold chat_replied, append_message; cbn [apply_action chatMessages].
    rewrite length_app, H0, length_app; cbn. lia.
Qed.

(** C3.  With an empty input [handleChat] returns at its guard: no
    setter is called, no request is issued, the clock is not read; a
    submission by key or by button leaves the whole world as it was. *)
Theorem chat_empty_message_rejected w :
  chatInput (w_store w) = [] ->
  exec clock (handleChat (w_store w)) (w_store w) (w_ticks w)
    = idle Finished (w_store w) (w_ticks w)
  /\ (forall e, deliver clock (KeyPressChat e) w = w)
  /\ deliver clock ClickSend w = w.
Proof.
  intros He.
  assert (Hb : blank (chatInput (w_store w)) = true) by now rewrite He.
  pose proof (handleChat_blank (w_store w) (w_store w) (w_ticks w) Hb) as Hrun.
  split; [exact Hrun|]. split.
  - intros e. cbn -[handleChat]. unfold handleKeyPress.
    destruct (Js.eqb (key e) js"Enter" && negb (shiftKey e)); unfold launch.
    + rewrite Hrun. cbn. rewrite !app_nil_r. now destruct w.
    + cbn. rewrite !app_nil_r. now destruct w.
  - cbn -[handleChat]. unfold send_disabled. rewrite Hb. now rewrite orb_true_r.
Qed.

Lemma history_lookup (l : list ChatMessage) i m :
  l !! i = Some m ->
  List.map json_of_message l !! i
  = Some (JObj [(js"role",
                 JStr (match role m with User => js"user" | Assistant => js"assistant" end));
                (js"content", content m);
                (js"timestamp", JStr (timestamp m))]).
Proof.
  revert i. induction l as [|x l IH]; intros [|i] Hi; try discriminate Hi.
  - injection Hi as ->. cbn. unfold json_of_message, role_name. now destruct (role m).
  - exact (IH i Hi).
Qed.

(** C10.  Every request [handleChat] issues carries the submitted text
    in [message] and, in [conversation_history], the transcript of the
    render the handler was created in, message by message: an array as
    long as that transcript whose [i]-th item is the object of the
    [i]-th message, with its role as ["user"] or ["assistant"], its
    content and its timestamp.  The transcript the store holds at that
    moment is one message longer: that history followed by the new user
    message, whose text is only in [message]. *)
Theorem chat_history_excludes_new_message s n r :
  In (EvRequest r) (events (exec clock (handleChat s) s n)) ->
  exists body items,
    req_body r = Some body
    /\ get_prop body js"message" = inr (Some (JStr (chatInput s)))
    /\ get_prop body js"conversation_history" = inr (Some (JArr items))
    /\ items = List.map json_of_message (chatMessages s)
    /\ length items = length (chatMessages s)
    /\ (forall i m,
          chatMessages s !! i = Some m ->
          items !! i
          = Some (JObj [(js"role",
                         JStr (match role m with
                               | User => js"user"
                               | Assistant => js"assistant"
                               end));
                        (js"content", content m);
                        (js"timestamp", JStr (timestamp m))]))
    /\ chatMessages (store (exec clock (handleChat s) s n))
       = chatMessages s ++ [user_message clock s n]
    /\ length (chatMessages (store (exec clock (handleChat s) s n))) = S (length items)
    /\ content (user_message clock s n) = JStr (chatInput s).
Proof.
  intros Hin. destruct (blank (chatInput s)) eqn:Hb.
  - rewrite (handleChat_blank s s n Hb) in Hin. destruct Hin.
  - destruct (handleChat_sync s s n Hb) as [k Hk]. rewrite Hk in *. cbn in Hin.
    destruct Hin as [H|[H|[H|[H|[]]]]]; try discriminate. injection H as <-.
    exists (JObj [(js"message", JStr (chatInput s));
                  (js"conversation_history",
                   JArr (List.map json_of_message (chatMessages s)));
                  (js"system_prompt", JStr system_prompt)]),
           (List.map json_of_message (chatMessages s)).
    split; [reflexivity|]. split; [reflexivity|]. split; [reflexivity|].
    split; [reflexivity|]. split; [apply length_map|].
    split; [intros i m; apply history_lookup|].
    split; [reflexivity|]. split; [|reflexivity].
    unfold chat_sent, append_message; cbn [store apply_action chatMessages].
    rewrite length_app, length_map. cbn. lia.
Qed.

(** ** The search and analysis regions *)

Lemma search_shown_empty body :
  decoded body js"results" = inr (Some (JArr [])) -> search_shown body = JArr [].
Proof. intros H. unfold search_shown. now rewrite H. Qed.

Lemma search_shown_failed body e :
  decoded body js"results" = inl e -> search_shown body = JArr [].
Proof. intros H. unfold search_shown. now rewrite H. Qed.

(** C4.  Once a search request is out (the query is not blank, the busy
    flag is up), a rejected [fetch], an undecodable body and a response
    whose [results] is the empty array all end the handler in the same
    store: the current one with [searchResults] the empty array and
    [isSearching] false.  No other cell records the failure. *)
Theorem search_failure_is_zero_results s n :
  blank (searchQuery s) = false ->
  let r0 := exec clock (handleSearch s) s n in
  (exists k, outcome r0 = OnFetch (search_request s) k)
  /\ isSearching (store r0) = true
  /\ forall s1 n1 s2 n2,
      (forall e,
         let r1 := on_fetch clock (outcome r0) (inl e) s1 n1 in
         outcome r1 = Finished /\ store r1 = search_settled (JArr []) s1)
      /\ (forall resp,
            let r1 := on_fetch clock (outcome r0) (inr resp) s1 n1 in
            let r2 := on_body clock (outcome r1) s2 n2 in
            store r1 = s1
            /\ outcome r2 = Finished
            /\ isSearching (store r2) = false
            /\ ((decoded (resp_json resp) js"results" = inr (Some (JArr []))
                 \/ exists e, decoded (resp_json resp) js"results" = inl e) ->
                store r2 = search_settled (JArr []) s2))
      /\ searchResults (search_settled (JArr []) s2) = JArr []
      /\ isSearching (search_settled (JArr []) s2) = false.
Proof.
  intros Hb. cbn zeta.
  destruct (handleSearch_sync s s n Hb) as [k Hk].
  split; [exists k; now rewrite Hk|]. split; [now rewrite Hk|].
  intros s1 n1 s2 n2. split; [|split; [|split; reflexivity]].
  - intros e. rewrite (handleSearch_fetch_rejected s s n e s1 n1 Hb). now split.
  - intros resp. rewrite (handleSearch_body s s n resp s1 n1 s2 n2 Hb).
    destruct (handleSearch_fetch_resolved s s n resp s1 n1 Hb) as [k2 Hk2].
    rewrite Hk2. split; [reflexivity|]. split; [reflexivity|]. split; [reflexivity|].
    cbn [store]. intros [H|[e H]].
    + now rewrite (search_shown_empty _ H).
    + now rewrite (search_shown_failed _ e H).
Qed.

(** C5.  With a query that is not blank, [handleSearchAndAnalyze] raises
    [isSearching] and [isAnalyzing] in one synchronous segment, before it
    issues its only request; both are still up while the body is being
    decoded, and both are down when the handler ends, on a response and
    on a failure alike.  No later segment issues a request. *)
Theorem analyzing_raises_and_clears_both_flags s n :
  blank (searchQuery s) = false ->
  let r0 := exec clock (handleSearchAndAnalyze s) s n in
  events r0 = [EvCall (SetIsSearching true); EvCall (SetIsAnalyzing true);
               EvRequest (analyze_request s)]
  /\ isSearching (store r0) = true /\ isAnalyzing (store r0) = true
  /\ forall answer s1 n1 s2 n2,
      let r1 := on_fetch clock (outcome r0) answer s1 n1 in
      let r2 := on_body clock (outcome r1) s2 n2 in
      count is_request (events r1 ++ events r2) = 0
      /\ match answer with
         | inl _ =>
             outcome r1 = Finished
             /\ isSearching (store r1) = false /\ isAnalyzing (store r1) = false
         | inr resp =>
             store r1 = s1 /\ (exists k, outcome r1 = OnJson resp k)
             /\ outcome r2 = Finished
             /\ isSearching (store r2) = false /\ isAnalyzing (store r2) = false
         end.
Proof.
  intros Hb. cbn zeta.
  destruct (handleAnalyze_sync s s n Hb) as [k Hk].
  split; [now rewrite Hk|]. split; [now rewrite Hk|]. split; [now rewrite Hk|].
  intros [e|resp] s1 n1 s2 n2.
  - rewrite (handleAnalyze_fetch_rejected s s n e s1 n1 Hb). now repeat split.
  - destruct (handleAnalyze_body s s n resp s1 n1 s2 n2 Hb) as (Ho & Hs & _ & Hc).
    destruct (handleAnalyze_fetch_resolved s s n resp s1 n1 Hb) as [k2 Hk2].
    rewrite count_app, Hc, Ho, Hs. rewrite Hk2.
    split; [reflexivity|]. split; [reflexivity|]. split; [now exists k2|].
    split; [reflexivity|].
    unfold analyze_settled.
    destruct (decoded _ js"search_results"); [split; reflexivity|].
    destruct (decoded _ js"analysis"); split; reflexivity.
Qed.

Lemma or_else_empty text :
  or_else text (JStr js"") = JStr js""
  <-> text = None \/ exists v, text = Some v /\ truthy v = false.
Proof.
  split.
  - destruct text as [v|]; [|now left]. cbn. destruct (truthy v) eqn:Hv.
    + intros ->. discriminate Hv.
    + intros _. right. now exists v.
  - intros [->|(v & -> & Hv)]; [reflexivity|]. cbn. now rewrite Hv.
Qed.

(** C6 (as amended).  When the search-and-analyze call settles, the
    analysis cell holds: the literal [analysis_error], which is not
    empty, if [fetch] rejected, the body was not JSON or was [null];
    otherwise the [analysis] field of the response when that field is
    truthy, and the empty string when the field is absent or falsy. *)
Theorem analysis_after_settlement s n answer s1 n1 s2 n2 :
  blank (searchQuery s) = false ->
  let r0 := exec clock (handleSearchAndAnalyze s) s n in
  let r1 := on_fetch clock (outcome r0) answer s1 n1 in
  let r2 := on_body clock (outcome r1) s2 n2 in
  match answer with
  | inl _ => analysis (store r1) = JStr analysis_error
  | inr resp =>
      analysis (store r1) = analysis s1
      /\ analysis (store r2) =
           match decoded (resp_json resp) js"analysis" with
           | inl _ => JStr analysis_error
           | inr text => or_else text (JStr js"")
           end
  end
  /\ JStr analysis_error <> JStr js""
  /\ forall text,
       or_else text (JStr js"") = JStr js""
       <-> text = None \/ exists v, text = Some v /\ truthy v = false.
Proof.
  intros Hb. cbn zeta. split; [|split; [discriminate|exact or_else_empty]].
  destruct answer as [e|resp].
  - now rewrite (handleAnalyze_fetch_rejected s s n e s1 n1 Hb).
  - destruct (handleAnalyze_body s s n resp s1 n1 s2 n2 Hb) as (_ & Hs & _).
    destruct (handleAnalyze_fetch_resolved s s n resp s1 n1 Hb) as [k2 Hk2].
    rewrite Hs, Hk2. split; [reflexivity|]. unfold analyze_settled.
    destruct (resp_json resp) as [e|data]; [reflexivity|].
    destruct data; reflexivity.
Qed.

(** ** The status probe *)

Lemma checkAgentStatus_careful : careful checkAgentStatus.
Proof. cbn. intros [e|resp]; cbn; [exact I|]. intros [e|data]; cbn; exact I. Qed.

(** C7.  [checkAgentStatus] lets no exception escape, on any path.  It
    suspends on the status request; if [fetch] rejects, or the body
    cannot be decoded, it stores an object whose [status] is
    ["unhealthy"] and whose [error] is the message of the exception;
    if the body decodes, it stores the decoded value as it is. *)
Theorem status_probe_never_raises s0 n answer s1 n1 s2 n2 :
  let r0 := exec clock checkAgentStatus s0 n in
  let r1 := on_fetch clock (outcome r0) answer s1 n1 in
  let r2 := on_body clock (outcome r1) s2 n2 in
  careful checkAgentStatus
  /\ (exists k, outcome r0 = OnFetch status_request k)
  /\ outcome r2 = Finished
  /\ match answer with
     | inl e => outcome r1 = Finished /\ agentStatus (store r1) = unhealthy e
     | inr resp =>
         (exists k, outcome r1 = OnJson resp k)
         /\ agentStatus (store r2) =
              match resp_json resp with
              | inl e => unhealthy e
              | inr data => data
              end
     end
  /\ forall e,
       get_prop (unhealthy e) js"status" = inr (Some (JStr js"unhealthy"))
       /\ get_prop (unhealthy e) js"error" = inr (Some (JStr (err_message e))).
Proof.
  cbn zeta. split; [exact checkAgentStatus_careful|].
  destruct (checkAgentStatus_sync s0 n) as [k Hk].
  split; [exists k; now rewrite Hk|].
  destruct answer as [e|resp].
  - rewrite (checkAgentStatus_fetch_rejected s0 n e s1 n1). now repeat split.
  - rewrite (checkAgentStatus_body s0 n resp s1 n1 s2 n2).
    destruct (checkAgentStatus_fetch_resolved s0 n resp s1 n1) as [k2 Hk2]. rewrite Hk2.
    split; [reflexivity|]. split; [split; [now exists k2|reflexivity]|]. now split.
Qed.

(** C8.  In every session of the mounted component the log starts with
    the status request of the mount effect and holds no other status
    request, whatever the user does and however the pending promises
    settle; [setAgentStatus] is called at most once; and once it has
    been called, no further input changes [agentStatus]. *)
Theorem status_polled_once_at_mount ins :
  let w := session clock ins (mounted clock) in
  (exists rest, w_log w = EvRequest status_request :: rest
                /\ count is_status_request rest = 0)
  /\ count is_status_update (w_log w) <= 1
  /\ (count is_status_update (w_log w) = 1 ->
      forall more,
        agentStatus (w_store (session clock more w)) = agentStatus (w_store w)).
Proof.
  cbn zeta.
  pose proof (session_probe_once ins _ mounted_probe_once) as Hinv.
  split; [|split].
  - destruct (session_log ins (mounted clock)) as [evs Hlog].
    destruct Hinv as [Hreq _]. rewrite Hlog in *.
    exists evs. split; [reflexivity|].
    change (w_log (mounted clock) ++ evs) with ([EvRequest status_request] ++ evs) in Hreq.
    rewrite count_app in Hreq. change (count is_status_request [EvRequest status_request]) with 1 in Hreq.
    lia.
  - destruct Hinv as (_ & bs & _ & Hsum). lia.
  - intros Hc more. now apply session_status_frame.
Qed.

(** C9.  In every session of the mounted component the transcript at
    any moment is a prefix of the transcript at any later moment: the
    messages already there keep their place and their fields.  Every
    chat submission that is not rejected issues exactly the request
    [chat_request], whose [conversation_history] is the whole transcript
    of the current render, message by message: an array as long as the
    transcript whose [i]-th item is the object of the [i]-th message,
    with its role as ["user"] or ["assistant"], its content and its
    timestamp. *)
Theorem transcript_append_only ins more s n :
  chatMessages (w_store (session clock ins (mounted clock)))
    `prefix_of` chatMessages (w_store (session clock (ins ++ more) (mounted clock)))
  /\ List.filter is_request (events (exec clock (handleChat s) s n))
     = (if blank (chatInput s) then [] else [EvRequest (chat_request s)])
  /\ exists body items,
      req_body (chat_request s) = Some body
      /\ get_prop body js"conversation_history" = inr (Some (JArr items))
      /\ items = List.map json_of_message (chatMessages s)
      /\ length items = length (chatMessages s)
      /\ forall i m,
           chatMessages s !! i = Some m ->
           items !! i
           = Some (JObj [(js"role",
                          JStr (match role m with
                                | User => js"user"
                                | Assistant => js"assistant"
                                end));
                         (js"content", content m);
                         (js"timestamp", JStr (timestamp m))]).
Proof.
  split; [|split].
  - rewrite session_app.
    destruct (session_appending ins _ mounted_transcript_safe) as [_ Hsafe].
    now destruct (session_appending more _ Hsafe).
  - destruct (blank (chatInput s)) eqn:Hb.
    + now rewrite (handleChat_blank s s n Hb).
    + destruct (handleChat_sync s s n Hb) as [k Hk]. now rewrite Hk.
  - exists (JObj [(js"message", JStr (chatInput s));
                  (js"conversation_history",
                   JArr (List.map json_of_message (chatMessages s)));
                  (js"system_prompt", JStr system_prompt)]),
           (List.map json_of_message (chatMessages s)).
    split; [reflexivity|]. split; [reflexivity|]. split; [reflexivity|].
    split; [apply length_map|]. intros i m. apply history_lookup.
Qed.

End Properties.

(** * More of the component *)

Section Coverage.

Variable clock : nat -> jsstring.

Ltac run := cbn -[apply_action]; try reflexivity.

Ltac enter_handler h Hb :=
  unfold h;
  match type of Hb with blank ?v = _ => fold (blank v); rewrite Hb end.

(** ** The guards *)

Lemma js_eqb_eq a b : Js.eqb a b = true <-> a = b.
Proof.
  revert b. induction a as [|x a IH]; intros [|y b]; cbn; try (split; congruence).
  rewrite andb_true_iff, N.eqb_eq, IH. split; [intros [-> ->]; reflexivity|].
  intros [= -> ->]. now split.
Qed.

Lemma js_eqb_refl a : Js.eqb a a = true.
Proof. now apply js_eqb_eq. Qed.

Lemma trim_start_empty s :
  Js.trim_start s = [] <-> forallb Js.is_white s = true.
Proof.
  induction s as [|c s IH]; cbn; [tauto|].
  destruct (Js.is_white c); cbn; [exact IH|]. split; discriminate.
Qed.

Lemma trim_start_white s :
  forallb Js.is_white (Js.trim_start s) = true -> Js.trim_start s = [].
Proof.
  induction s as [|c s IH]; cbn; [reflexivity|].
  destruct (Js.is_white c) eqn:Hc; [exact IH|]. cbn. rewrite Hc. discriminate.
Qed.

Lemma forallb_rev {A} (f : A -> bool) l : forallb f (rev l) = forallb f l.
Proof.
  induction l as [|x l IH]; [reflexivity|].
  cbn. rewrite forallb_app, IH. cbn. rewrite andb_true_r. apply andb_comm.
Qed.

Lemma blank_whitespace v : blank v = true <-> forallb Js.is_white v = true.
Proof.
  unfold blank, Js.trim.
  destruct (rev (Js.trim_start (rev (Js.trim_start v)))) as [|c t] eqn:Hr; cbn.
  - assert (Hin : Js.trim_start (rev (Js.trim_start v)) = []).
    { rewrite <- (rev_involutive (Js.trim_start _)), Hr. reflexivity. }
    apply trim_start_empty in Hin. rewrite forallb_rev in Hin.
    apply trim_start_white, trim_start_empty in Hin. tauto.
  - split; [discriminate|]. intros Hw. apply trim_start_empty in Hw.
    rewrite Hw in Hr. discriminate Hr.
Qed.

(** X1.  A submission is turned away at the guard exactly when the text
    consists of whitespace only (the empty text included): then, and only
    then, the handler logs nothing and does not suspend. *)
Theorem submission_rejected_iff_whitespace s n :
  (exec clock (handleChat s) s n = idle Finished s n
     <-> forallb Js.is_white (chatInput s) = true)
  /\ (exec clock (handleSearch s) s n = idle Finished s n
        <-> forallb Js.is_white (searchQuery s) = true)
  /\ (exec clock (handleSearchAndAnalyze s) s n = idle Finished s n
        <-> forallb Js.is_white (searchQuery s) = true).
Proof.
  split; [|split].
  - rewrite <- blank_whitespace. destruct (blank (chatInput s)) eqn:Hb.
    + split; [reflexivity|]. intros _. now apply handleChat_blank.
    + destruct (handleChat_sync clock s s n Hb) as [k ->]. split; discriminate.
  - rewrite <- blank_whitespace. destruct (blank (searchQuery s)) eqn:Hb.
    + split; [reflexivity|]. intros _. now apply handleSearch_blank.
    + destruct (handleSearch_sync clock s s n Hb) as [k ->]. split; discriminate.
  - rewrite <- blank_whitespace. destruct (blank (searchQuery s)) eqn:Hb.
    + split; [reflexivity|]. intros _. now apply handleAnalyze_blank.
    + destruct (handleAnalyze_sync clock s s n Hb) as [k ->]. split; discriminate.
Qed.

Lemma launch_nothing w : launch clock (Ret tt) w = w.
Proof. unfold launch; cbn. rewrite !app_nil_r. now destruct w. Qed.

(** X2.  [handleKeyPress] runs its action for the Enter key without
    Shift, as the action itself, and does nothing for any other key
    press: such a press in the search box or in the chat box leaves the
    world as it was. *)
Theorem key_press_submits_only_on_plain_enter e action w :
  (key e = js"Enter" /\ shiftKey e = false -> handleKeyPress e action = action)
  /\ (key e <> js"Enter" \/ shiftKey e = true ->
      handleKeyPress e action = Ret tt
      /\ deliver clock (KeyPressSearch e) w = w
      /\ deliver clock (KeyPressChat e) w = w).
Proof.
  unfold handleKeyPress. split.
  - intros [Hk Hs]. now rewrite Hk, Hs, js_eqb_refl.
  - intros H.
    assert (Hc : Js.eqb (key e) js"Enter" && negb (shiftKey e) = false).
    { destruct H as [H| ->]; [|apply andb_false_r].
      destruct (Js.eqb (key e) js"Enter") eqn:He; [|reflexivity].
      apply js_eqb_eq in He. contradiction. }
    cbn [deliver]. unfold handleKeyPress. rewrite Hc.
    split; [reflexivity|]. split; apply launch_nothing.
Qed.

(** ** The busy flags *)

(** X3.  The chat busy flag gates the Send button only.  While
    [isChatting] is up a click on Send does nothing; the Enter key in the
    chat box, which does not look at the flag, submits all the same: a
    text that is not blank appends its user message and issues a second
    chat request next to the pending ones. *)
Theorem chat_busy_flag_gates_only_the_button w :
  blank (chatInput (w_store w)) = false ->
  (isChatting (w_store w) = true -> deliver clock ClickSend w = w)
  /\ (isChatting (w_store w) = false ->
      deliver clock ClickSend w = deliver clock (KeyPressChat enter) w)
  /\ w_log (deliver clock (KeyPressChat enter) w)
     = w_log w ++
       [EvCall (SetChatMessages
                  (append_message (user_message clock (w_store w) (w_ticks w))));
        EvCall (SetChatInput js"");
        EvCall (SetIsChatting true);
        EvRequest (chat_request (w_store w))]
  /\ exists k,
      w_pending (deliver clock (KeyPressChat enter) w)
      = w_pending w ++ [PFetch (chat_request (w_store w)) k].
Proof.
  intros Hb. split; [|split].
  - intros Hc. cbn [deliver]. unfold send_disabled. now rewrite Hc.
  - intros Hc. cbn [deliver]. unfold send_disabled. now rewrite Hc, Hb.
  - cbn [deliver]. change (handleKeyPress enter ?a) with a. unfold launch.
    destruct (handleChat_sync clock (w_store w) (w_store w) (w_ticks w) Hb) as [k ->].
    cbn. split; [reflexivity|]. now exists k.
Qed.

(** X4.  The search busy flag gates the two buttons only.  While
    [isSearching] is up both clicks do nothing, yet the Enter key in the
    search box starts another search; and while an analysis alone is
    marked ([isAnalyzing]) the Search button still works. *)
Theorem search_busy_flag_gates_only_the_buttons w :
  blank (searchQuery (w_store w)) = false ->
  (isSearching (w_store w) = true ->
   deliver clock ClickSearch w = w /\ deliver clock ClickSearchAndAnalyze w = w)
  /\ (isSearching (w_store w) = false ->
      deliver clock ClickSearch w = deliver clock (KeyPressSearch enter) w)
  /\ (isSearching (w_store w) = false -> isAnalyzing (w_store w) = true ->
      deliver clock ClickSearchAndAnalyze w = w)
  /\ w_log (deliver clock (KeyPressSearch enter) w)
     = w_log w ++ [EvCall (SetIsSearching true); EvRequest (search_request (w_store w))]
  /\ exists k,
      w_pending (deliver clock (KeyPressSearch enter) w)
      = w_pending w ++ [PFetch (search_request (w_store w)) k].
Proof.
  intros Hb. split; [|split; [|split]].
  - intros Hc. cbn [deliver]. unfold search_disabled, analyze_disabled. now rewrite Hc.
  - intros Hc. cbn [deliver]. unfold search_disabled. now rewrite Hc, Hb.
  - intros Hc Ha. cbn [deliver]. unfold analyze_disabled. now rewrite Hc, Ha.
  - cbn [deliver]. change (handleKeyPress enter ?a) with a. unfold launch.
    destruct (handleSearch_sync clock (w_store w) (w_store w) (w_ticks w) Hb) as [k ->].
    cbn. split; [reflexivity|]. now exists k.
Qed.

(** ** Requests and responses of the handlers *)

(** X5.  A search or chat submission that passes the guard issues one
    request in its whole life, in its synchronous part: none when the
    call settles, whatever it settles with.  The search request carries
    the query as typed, not trimmed, and asks for 10 results. *)
Theorem one_request_per_submission s n answer s1 n1 s2 n2 :
  (blank (searchQuery s) = false ->
   let r0 := exec clock (handleSearch s) s n in
   let r1 := on_fetch clock (outcome r0) answer s1 n1 in
   let r2 := on_body clock (outcome r1) s2 n2 in
   List.filter is_request (events r0 ++ events r1 ++ events r2)
   = [EvRequest (search_request s)]
   /\ req_method (search_request s) = POST
   /\ exists body,
       req_body (search_request s) = Some body
       /\ get_prop body js"query" = inr (Some (JStr (searchQuery s)))
       /\ get_prop body js"num_results" = inr (Some (JNum 10)))
  /\ (blank (chatInput s) = false ->
      let r0 := exec clock (handleChat s) s n in
      let r1 := on_fetch clock (outcome r0) answer s1 n1 in
      let r2 := on_body clock (outcome r1) s2 n2 in
      List.filter is_request (events r0 ++ events r1 ++ events r2)
      = [EvRequest (chat_request s)]).
Proof.
  split; intros Hb; cbn zeta.
  - split; [|split; [reflexivity|eexists; repeat split]].
    destruct (handleSearch_sync clock s s n Hb) as [k Hk].
    destruct answer as [e|resp].
    + rewrite (handleSearch_fetch_rejected clock s s n e s1 n1 Hb). now rewrite Hk.
    + rewrite (handleSearch_body clock s s n resp s1 n1 s2 n2 Hb).
      destruct (handleSearch_fetch_resolved clock s s n resp s1 n1 Hb) as [k2 ->].
      rewrite Hk. unfold failure_log. now destruct (decoded _ _).
  - destruct (handleChat_sync clock s s n Hb) as [k Hk].
    destruct answer as [e|resp].
    + rewrite (handleChat_fetch_rejected clock s s n e s1 n1 Hb). now rewrite Hk.
    + rewrite (handleChat_body clock s s n resp s1 n1 s2 n2 Hb).
      destruct (handleChat_fetch_resolved clock s s n resp s1 n1 Hb) as [k2 ->].
      rewrite Hk. unfold failure_log. now destruct (decoded _ _).
Qed.

(** X6.  When the body of a search response has been decoded, the
    handler overwrites [searchResults] in whatever store it finds, with
    no check that the query or the results have changed meanwhile.  A
    truthy [results] field is stored as it is: an array keeps all its
    items in their order, however many, and a value that is not an array
    is stored too.  A missing or falsy field gives the empty array. *)
Theorem search_response_is_stored_as_is s n resp s1 n1 s2 n2 :
  blank (searchQuery s) = false ->
  let r0 := exec clock (handleSearch s) s n in
  let r1 := on_fetch clock (outcome r0) (inr resp) s1 n1 in
  let r2 := on_body clock (outcome r1) s2 n2 in
  searchResults (store r2) = search_shown (resp_json resp)
  /\ isSearching (store r2) = false
  /\ (forall v, decoded (resp_json resp) js"results" = inr (Some v) ->
                truthy v = true -> searchResults (store r2) = v)
  /\ (forall items, decoded (resp_json resp) js"results" = inr (Some (JArr items)) ->
                    searchResults (store r2) = JArr items)
  /\ (forall v, decoded (resp_json resp) js"results" = inr (Some v) ->
                truthy v = false -> searchResults (store r2) = JArr [])
  /\ (decoded (resp_json resp) js"results" = inr None ->
      searchResults (store r2) = JArr []).
Proof.
  intros Hb. cbn zeta. rewrite (handleSearch_body clock s s n resp s1 n1 s2 n2 Hb).
  cbn [store search_settled apply_action searchResults isSearching]. unfold search_shown.
  split; [reflexivity|]. split; [reflexivity|]. repeat split.
  - intros v -> Hv. cbn. now rewrite Hv.
  - now intros items ->.
  - intros v -> Hv. cbn. now rewrite Hv.
  - now intros ->.
Qed.

(** ** What a handler leaves alone *)

Lemma analyze_settled_frame body s0 :
  chat_cells (analyze_settled body s0) = chat_cells s0
  /\ searchQuery (analyze_settled body s0) = searchQuery s0
  /\ agentStatus (analyze_settled body s0) = agentStatus s0.
Proof.
  unfold analyze_settled.
  destruct (decoded body js"search_results"); [now repeat split|].
  destruct (decoded body js"analysis"); now repeat split.
Qed.

(** X7.  In each of its segments [handleSearch] changes [searchResults]
    and [isSearching] and nothing else: the search box keeps its text,
    and the analysis, its busy flag, the active tab, the chat cells and
    the agent status stay as the segment found them.  In particular a
    search that settles clears [isSearching] while it leaves the
    [isAnalyzing] of a pending analysis up. *)
Theorem search_touches_only_its_cells s n answer s1 n1 s2 n2 :
  blank (searchQuery s) = false ->
  let r0 := exec clock (handleSearch s) s n in
  let r1 := on_fetch clock (outcome r0) answer s1 n1 in
  let r2 := on_body clock (outcome r1) s2 n2 in
  let kept (a b : State) :=
    searchQuery a = searchQuery b /\ analysis_cells a = analysis_cells b
    /\ chat_cells a = chat_cells b /\ agentStatus a = agentStatus b in
  kept (store r0) s /\ kept (store r1) s1 /\ kept (store r2) s2.
Proof.
  intros Hb. cbn zeta.
  destruct (handleSearch_sync clock s s n Hb) as [k Hk].
  split; [now rewrite Hk|]. destruct answer as [e|resp].
  - rewrite (handleSearch_fetch_rejected clock s s n e s1 n1 Hb). now repeat split.
  - rewrite (handleSearch_body clock s s n resp s1 n1 s2 n2 Hb).
    destruct (handleSearch_fetch_resolved clock s s n resp s1 n1 Hb) as [k2 ->].
    now repeat split.
Qed.

(** X8.  In each of its segments [handleChat] changes the chat cells and
    nothing else.  Of the chat cells, the segments that run at
    settlement leave the input box alone: the text cleared at submission
    is not put back when the call fails. *)
Theorem chat_touches_only_its_cells s n answer s1 n1 s2 n2 :
  blank (chatInput s) = false ->
  let r0 := exec clock (handleChat s) s n in
  let r1 := on_fetch clock (outcome r0) answer s1 n1 in
  let r2 := on_body clock (outcome r1) s2 n2 in
  let kept (a b : State) :=
    searchQuery a = searchQuery b /\ search_cells a = search_cells b
    /\ analysis_cells a = analysis_cells b /\ agentStatus a = agentStatus b in
  kept (store r0) s /\ kept (store r1) s1 /\ kept (store r2) s2
  /\ chatInput (store r0) = js""
  /\ chatInput (store r1) = chatInput s1
  /\ chatInput (store r2) = chatInput s2.
Proof.
  intros Hb. cbn zeta.
  destruct (handleChat_sync clock s s n Hb) as [k Hk].
  split; [now rewrite Hk|]. destruct answer as [e|resp].
  - rewrite (handleChat_fetch_rejected clock s s n e s1 n1 Hb), Hk. now repeat split.
  - rewrite (handleChat_body clock s s n resp s1 n1 s2 n2 Hb).
    destruct (handleChat_fetch_resolved clock s s n resp s1 n1 Hb) as [k2 ->].
    rewrite Hk. now repeat split.
Qed.

(** X9.  In each of its segments [handleSearchAndAnalyze] leaves the
    search box, the chat cells and the agent status as it found them. *)
Theorem analyze_leaves_chat_and_status_alone s n answer s1 n1 s2 n2 :
  blank (searchQuery s) = false ->
  let r0 := exec clock (handleSearchAndAnalyze s) s n in
  let r1 := on_fetch clock (outcome r0) answer s1 n1 in
  let r2 := on_body clock (outcome r1) s2 n2 in
  let kept (a b : State) :=
    searchQuery a = searchQuery b /\ chat_cells a = chat_cells b
    /\ agentStatus a = agentStatus b in
  kept (store r0) s /\ kept (store r1) s1 /\ kept (store r2) s2.
Proof.
  intros Hb. cbn zeta.
  destruct (handleAnalyze_sync clock s s n Hb) as [k Hk].
  split; [now rewrite Hk|]. destruct answer as [e|resp].
  - rewrite (handleAnalyze_fetch_rejected clock s s n e s1 n1 Hb). now repeat split.
  - destruct (handleAnalyze_body clock s s n resp s1 n1 s2 n2 Hb) as (_ & -> & _).
    destruct (handleAnalyze_fetch_resolved clock s s n resp s1 n1 Hb) as [k2 ->].
    split; [now repeat split|].
    destruct (analyze_settled_frame (resp_json resp) s2) as (H1 & H2 & H3).
    now repeat split.
Qed.

(** X10.  [handleSearchAndAnalyze] switches to the analysis tab exactly
    when the body decodes to a value other than [null], be its analysis
    empty or not; then it stores the [search_results] field, or the empty
    array in its place.  When the call fails it clears the result list,
    writes the error text into the analysis cell and leaves the active
    tab where it is. *)
Theorem analyze_switches_tab_on_response_only s n answer s1 n1 s2 n2 :
  blank (searchQuery s) = false ->
  let r0 := exec clock (handleSearchAndAnalyze s) s n in
  let r1 := on_fetch clock (outcome r0) answer s1 n1 in
  let r2 := on_body clock (outcome r1) s2 n2 in
  activeTab (store r0) = activeTab s
  /\ match answer with
     | inl _ =>
         activeTab (store r1) = activeTab s1
         /\ searchResults (store r1) = JArr []
         /\ analysis (store r1) = JStr analysis_error
     | inr resp =>
         activeTab (store r1) = activeTab s1
         /\ match decoded (resp_json resp) js"search_results" with
            | inl _ =>
                activeTab (store r2) = activeTab s2
                /\ searchResults (store r2) = JArr []
                /\ analysis (store r2) = JStr analysis_error
            | inr results =>
                activeTab (store r2) = js"analysis"
                /\ searchResults (store r2) = or_else results (JArr [])
            end
     end.
Proof.
  intros Hb. cbn zeta.
  destruct (handleAnalyze_sync clock s s n Hb) as [k Hk].
  split; [now rewrite Hk|]. destruct answer as [e|resp].
  - rewrite (handleAnalyze_fetch_rejected clock s s n e s1 n1 Hb). now repeat split.
  - destruct (handleAnalyze_body clock s s n resp s1 n1 s2 n2 Hb) as (_ & -> & _).
    destruct (handleAnalyze_fetch_resolved clock s s n resp s1 n1 Hb) as [k2 ->].
    split; [reflexivity|]. unfold analyze_settled.
    destruct (resp_json resp) as [e|data]; [now repeat split|].
    destruct data; now repeat split.
Qed.

(** ** More about sessions *)

Lemma exec_emits P p s n :
  emits P p ->
  Forall (fun e => P e = true)
    (events (exec clock p s n) ++ escaped (outcome (exec clock p s n)))
  /\ Forall (fun t => continuations t (emits P)) (suspended (outcome (exec clock p s n))).
Proof.
  revert s n. induction p as [a|e|a k IH|k IH|l e k IH|r k IH|r k IH]; intros s n Hp; cbn.
  - split; constructor.
  - split; repeat constructor. exact Hp.
  - destruct Hp as [Ha Hk]. destruct (IH (apply_action a s) n Hk) as [H1 H2].
    split; [constructor; assumption|exact H2].
  - apply IH, Hp.
  - destruct Hp as [Ha Hk]. destruct (IH s n Hk) as [H1 H2].
    split; [constructor; assumption|exact H2].
  - destruct Hp as [Hr Hk]. split; repeat constructor; assumption.
  - split; repeat constructor. exact Hp.
Qed.

Lemma session_emits P ins :
  (forall s p, started s p -> emits P p) ->
  emits P checkAgentStatus ->
  Forall (fun e => P e = true) (w_log (session clock ins (mounted clock))).
Proof.
  intros Hstarted Hprobe.
  assert (Hgen : forall ins w,
             Forall (fun e => P e = true) (w_log w) ->
             Forall (fun t => continuations t (emits P)) (w_pending w) ->
             Forall (fun e => P e = true) (w_log (session clock ins w))).
  { assert (Hlaunch : forall p w,
               emits P p ->
               Forall (fun e => P e = true) (w_log w) ->
               Forall (fun t => continuations t (emits P)) (w_pending w) ->
               Forall (fun e => P e = true) (w_log (launch clock p w))
               /\ Forall (fun t => continuations t (emits P)) (w_pending (launch clock p w))).
    { intros p w Hp Hl Hq.
      destruct (exec_emits P p (w_store w) (w_ticks w) Hp) as [H1 H2].
      unfold launch; cbn [w_log w_pending]. split; apply Forall_app; split; assumption. }
    clear ins. induction ins as [|i ins IH]; intros w Hl Hq; [exact Hl|].
    rewrite session_cons.
    destruct (deliver_cases clock i w) as [->|[(p & Hs & ->)|(j & t & p & Hj & Hr & ->)]].
    - now apply IH.
    - destruct (Hlaunch p w (Hstarted _ _ Hs) Hl Hq). now apply IH.
    - assert (Hp : emits P p).
      { pose proof (Forall_lookup_1 _ _ _ _ Hq Hj) as Ht. destruct Hr; apply Ht. }
      destruct (Hlaunch p (forget j w) Hp Hl) as [H1 H2];
        [cbn [forget w_pending]; now apply Forall_delete|]. now apply IH. }
  apply Hgen.
  - change (w_log (mounted clock))
      with ([] ++ events (exec clock checkAgentStatus initial_state 0)
               ++ escaped (outcome (exec clock checkAgentStatus initial_state 0))).
    apply (exec_emits P _ initial_state 0 Hprobe).
  - change (w_pending (mounted clock))
      with ([] ++ suspended (outcome (exec clock checkAgentStatus initial_state 0))).
    apply (exec_emits P _ initial_state 0 Hprobe).
Qed.

Lemma handlers_emit P s p :
  (forall a, P (EvCall a) = true) ->
  (forall l e, P (EvConsoleError l e) = true) ->
  P (EvRequest (search_request s)) = true ->
  P (EvRequest (analyze_request s)) = true ->
  P (EvRequest (chat_request s)) = true ->
  started s p -> emits P p.
Proof.
  intros Ha Hl H1 H2 H3.
  destruct 1; cbn; auto.
  - unfold handleSearch. destruct (negb _); cbn; [exact I|].
    repeat split; auto. intros [e|resp]; cbn; repeat split; auto.
    intros [e|data]; cbn; repeat split; auto. destruct data; cbn; repeat split; auto.
  - unfold handleSearchAndAnalyze. destruct (negb _); cbn; [exact I|].
    repeat split; auto. intros [e|resp]; cbn; repeat split; auto.
    intros [e|data]; cbn; repeat split; auto. destruct data; cbn; repeat split; auto.
  - unfold handleChat. destruct (negb _); cbn; [exact I|].
    intros t. repeat split; auto. intros [e|resp]; cbn; repeat split; auto.
    intros [e|data]; cbn; repeat split; auto. destruct data; cbn; repeat split; auto.
Qed.

Lemma probe_emits P :
  (forall a, P (EvCall a) = true) ->
  (forall l e, P (EvConsoleError l e) = true) ->
  P (EvRequest status_request) = true ->
  emits P checkAgentStatus.
Proof.
  intros Ha Hl H1. cbn. split; [exact H1|].
  intros [e|resp]; cbn; repeat split; auto. intros [e|data]; cbn; repeat split; auto.
Qed.

(** X11.  No exception ever escapes a handler: in every session of the
    mounted component, whatever the user does and whatever the network
    answers (rejections, bodies that are not JSON, [null], any JSON
    value), the log holds no unhandled rejection. *)
Theorem no_unhandled_rejection ins :
  count is_rejection (w_log (session clock ins (mounted clock))) = 0.
Proof.
  assert (H : Forall (fun e => no_rejection e = true)
                (w_log (session clock ins (mounted clock)))).
  { apply session_emits.
    - intros s p. now apply handlers_emit.
    - now apply probe_emits. }
  induction H as [|e l He _ IH]; [reflexivity|].
  unfold count in *. cbn. unfold no_rejection in He.
  destruct (is_rejection e); [discriminate|exact IH].
Qed.

(** X12.  Every request of every session goes to one of four places: a
    GET without body to [/agent/status], or a POST with a body to
    [/agent/search], [/agent/search-and-analyze] or [/agent/chat] under
    [API_BASE].  The component calls no other endpoint. *)
Theorem only_four_endpoints_are_called ins :
  Forall (fun e => to_known_endpoint e = true)
    (w_log (session clock ins (mounted clock))).
Proof.
  apply session_emits.
  - intros s p. now apply handlers_emit.
  - now apply probe_emits.
Qed.

(** *** Replies and submissions *)

Lemma users_app l m : users (l ++ [m]) = users l + (if is_user m then 1 else 0).
Proof.
  unfold users. rewrite List.filter_app, length_app. cbn. now destruct (is_user m).
Qed.

Lemma assistants_app l m :
  assistants (l ++ [m]) = assistants l + (if is_assistant m then 1 else 0).
Proof.
  unfold assistants. rewrite List.filter_app, length_app. cbn.
  now destruct (is_assistant m).
Qed.

Lemma exec_owes p c s n :
  owes p c ->
  users (chatMessages (store (exec clock p s n))) = users (chatMessages s)
  /\ exists done bs,
      done + total bs = c
      /\ assistants (chatMessages (store (exec clock p s n)))
         = assistants (chatMessages s) + done
      /\ Forall2 (fun t b => continuations t (fun q => owes q b))
           (suspended (outcome (exec clock p s n))) bs.
Proof.
  revert c s n.
  induction p as [a|e|a k IH|k IH|l e k IH|r k IH|r k IH]; intros c s n Hp.
  - cbn in Hp. subst c. split; [reflexivity|]. exists 0, [].
    repeat split; [cbn; lia|constructor].
  - cbn in Hp. subst c. split; [reflexivity|]. exists 0, [].
    repeat split; [cbn; lia|constructor].
  - destruct a; cbn in Hp;
      lazymatch goal with
      | |- context [Call (SetChatMessages _) _] => idtac
      | |- context [Call ?a _] => exact (IH c (apply_action a s) n Hp)
      end.
    destruct c as [|c]; [contradiction|]. destruct Hp as [(m & Hrole & Hu) Hk].
    change (exec clock (Call (SetChatMessages updater) k) s n)
      with (emit (EvCall (SetChatMessages updater))
              (exec clock k (apply_action (SetChatMessages updater) s) n)).
    cbn [emit store outcome].
    assert (Hs : chatMessages (apply_action (SetChatMessages updater) s)
                 = chatMessages s ++ [m]) by apply Hu.
    destruct (IH c (apply_action (SetChatMessages updater) s) n Hk)
      as (Husers & done & bs & Hsum & Hass & Hall).
    rewrite Hs, users_app in Husers. rewrite Hs, assistants_app in Hass.
    unfold is_user, is_assistant in *. rewrite Hrole in *.
    split; [lia|]. exists (S done), bs. repeat split; [lia|lia|exact Hall].
  - cbn. apply IH, Hp.
  - cbn. apply IH, Hp.
  - cbn. split; [reflexivity|]. exists 0, [c]. repeat split; [cbn; lia|lia|].
    repeat constructor. exact Hp.
  - cbn. split; [reflexivity|]. exists 0, [c]. repeat split; [cbn; lia|lia|].
    repeat constructor. exact Hp.
Qed.

Lemma handleChat_owes s n :
  blank (chatInput s) = false ->
  exists k,
    outcome (exec clock (handleChat s) s n) = OnFetch (chat_request s) k
    /\ chatMessages (store (exec clock (handleChat s) s n))
       = chatMessages s ++ [user_message clock s n]
    /\ forall x, owes (k x) 1.
Proof.
  intros Hb. enter_handler handleChat Hb. eexists. split; [run|]. split; [run|].
  intros [e|resp]; cbn.
  { intros t. split; [|reflexivity]. eexists. split; [|reflexivity]. reflexivity. }
  intros [e|data]; cbn.
  { intros t. split; [|reflexivity]. eexists. split; [|reflexivity]. reflexivity. }
  destruct data; cbn; intros t;
    (split; [|reflexivity]; eexists; split; [|reflexivity]; reflexivity).
Qed.

Lemma started_owes s p : started s p -> p = handleChat s \/ owes p 0.
Proof.
  destruct 1; [right|right|right|right|right|right|left]; cbn; auto.
  - unfold handleSearch. destruct (negb _); cbn; [reflexivity|].
    intros [e|resp]; cbn; [reflexivity|].
    intros [e|data]; cbn; [reflexivity|]. destruct data; reflexivity.
  - unfold handleSearchAndAnalyze. destruct (negb _); cbn; [reflexivity|].
    intros [e|resp]; cbn; [reflexivity|].
    intros [e|data]; cbn; [reflexivity|]. destruct data; reflexivity.
Qed.

Lemma launch_owes p c w bs :
  owes p c ->
  Forall2 (fun t b => continuations t (fun q => owes q b)) (w_pending w) bs ->
  exists bs',
    Forall2 (fun t b => continuations t (fun q => owes q b))
      (w_pending (launch clock p w)) bs'
    /\ users (chatMessages (w_store (launch clock p w)))
       = users (chatMessages (w_store w))
    /\ assistants (chatMessages (w_store (launch clock p w))) + total bs'
       = assistants (chatMessages (w_store w)) + total bs + c.
Proof.
  intros Hp Hbs.
  destruct (exec_owes p c (w_store w) (w_ticks w) Hp) as (Hu & done & cs & Hsum & Ha & Hall).
  unfold launch; cbn [w_store w_pending]. exists (bs ++ cs).
  split; [now apply Forall2_app|]. split; [exact Hu|]. rewrite total_app. lia.
Qed.

Lemma deliver_balanced i w : balanced w -> balanced (deliver clock i w).
Proof.
  intros (bs & Hbs & Heq).
  destruct (deliver_cases clock i w) as [->|[(p & Hs & ->)|(j & t & p & Hj & Hr & ->)]].
  - now exists bs.
  - destruct (started_owes _ _ Hs) as [->|Hp].
    + destruct (blank (chatInput (w_store w))) eqn:Hb.
      * unfold launch. rewrite (handleChat_blank clock _ _ _ Hb). cbn.
        exists bs. rewrite app_nil_r. now split.
      * destruct (handleChat_owes (w_store w) (w_ticks w) Hb) as (k & Ho & Hm & Hk).
        unfold launch, balanced; cbn [w_store w_pending]. exists (bs ++ [1]).
        rewrite Ho, Hm. cbn [suspended]. split.
        { apply Forall2_app; [exact Hbs|]. repeat constructor. exact Hk. }
        rewrite users_app, assistants_app, total_app. cbn. lia.
    + destruct (launch_owes p 0 w bs Hp Hbs) as (bs' & H1 & H2 & H3).
      exists bs'. split; [exact H1|]. lia.
  - destruct (Forall2_lookup_l _ _ _ _ _ Hbs Hj) as (b & Hb & Ht).
    assert (Hq : owes p b) by (destruct Hr; cbn in Ht; apply Ht).
    assert (Hdel : Forall2 (fun t c => continuations t (fun q => owes q c))
                     (w_pending (forget j w)) (delete j bs))
      by (cbn [forget w_pending]; now apply Forall2_delete).
    destruct (launch_owes p b (forget j w) (delete j bs) Hq Hdel) as (bs' & H1 & H2 & H3).
    exists bs'. split; [exact H1|].
    cbn [forget w_store] in H2, H3. pose proof (total_delete bs j b Hb). lia.
Qed.

Lemma session_balanced ins w : balanced w -> balanced (session clock ins w).
Proof.
  revert w. induction ins as [|i ins IH]; intros w Hw; [exact Hw|].
  rewrite session_cons. apply IH, deliver_balanced, Hw.
Qed.

Lemma mounted_balanced : balanced (mounted clock).
Proof.
  exists [0]. split; [|reflexivity]. repeat constructor.
  intros [e|resp]; cbn; [reflexivity|]. intros [e|data]; reflexivity.
Qed.

(** X13.  In every session the replies never outnumber the user's
    messages, and once no promise is pending the transcript holds as many
    replies as user messages: every accepted submission gets its one
    reply, and nothing else writes a reply. *)
Theorem every_submission_gets_one_reply ins :
  let w := session clock ins (mounted clock) in
  assistants (chatMessages (w_store w)) <= users (chatMessages (w_store w))
  /\ (w_pending w = [] ->
      assistants (chatMessages (w_store w)) = users (chatMessages (w_store w))).
Proof.
  cbn zeta. destruct (session_balanced ins _ mounted_balanced) as (bs & Hbs & Heq).
  split; [lia|]. intros Hp. rewrite Hp in Hbs. apply Forall2_nil_inv_l in Hbs.
  subst bs. cbn in Heq. lia.
Qed.

(** *** Timestamps *)

Lemma in_clock_order_snoc l m :
  in_clock_order clock l -> timestamp m = clock (length l) ->
  in_clock_order clock (l ++ [m]).
Proof.
  intros Hl Hm i x Hi. destruct (decide (i < length l)) as [Hlt|Hge].
  - rewrite lookup_app_l in Hi by exact Hlt. now apply Hl.
  - rewrite lookup_app_r in Hi by lia.
    destruct (i - length l) as [|d] eqn:Hd; [|destruct d; discriminate Hi].
    injection Hi as <-. replace i with (length l) by lia. exact Hm.
Qed.

Lemma exec_stamps p o s n :
  stamps p o ->
  match o with
  | None => n = length (chatMessages s)
  | Some t => n = S (length (chatMessages s)) /\ t = clock (length (chatMessages s))
  end ->
  in_clock_order clock (chatMessages s) ->
  ticks (exec clock p s n) = length (chatMessages (store (exec clock p s n)))
  /\ in_clock_order clock (chatMessages (store (exec clock p s n)))
  /\ Forall (fun t => continuations t (fun q => stamps q None))
       (suspended (outcome (exec clock p s n))).
Proof.
  revert o s n.
  induction p as [a|e|a k IH|k IH|l e k IH|r k IH|r k IH]; intros o s n Hp Hn Hord.
  - cbn in Hp. subst o. cbn. repeat split; [exact Hn|exact Hord|constructor].
  - cbn in Hp. subst o. cbn. repeat split; [exact Hn|exact Hord|constructor].
  - destruct a; cbn in Hp;
      lazymatch goal with
      | |- context [Call (SetChatMessages _) _] => idtac
      | |- context [Call ?a _] => exact (IH o (apply_action a s) n Hp Hn Hord)
      end.
    destruct o as [t|]; [|contradiction]. destruct Hp as [(m & Hm & Hu) Hk].
    destruct Hn as [Hn Ht].
    change (exec clock (Call (SetChatMessages updater) k) s n)
      with (emit (EvCall (SetChatMessages updater))
              (exec clock k (apply_action (SetChatMessages updater) s) n)).
    cbn [emit store outcome ticks].
    assert (Hs : chatMessages (apply_action (SetChatMessages updater) s)
                 = chatMessages s ++ [m]) by apply Hu.
    apply (IH None); [exact Hk| |].
    + rewrite Hs, length_app. cbn. lia.
    + rewrite Hs. apply in_clock_order_snoc; [exact Hord|congruence].
  - destruct Hp as [-> Hk]. cbn. apply (IH (clock n) (Some (clock n))); [apply Hk| |exact Hord].
    subst n. now split.
  - cbn. now apply (IH o).
  - destruct Hp as [-> Hk]. cbn. repeat split; [exact Hn|exact Hord|].
    repeat constructor. exact Hk.
  - destruct Hp as [-> Hk]. cbn. repeat split; [exact Hn|exact Hord|].
    repeat constructor. exact Hk.
Qed.

Lemma started_stamps s p : started s p -> stamps p None.
Proof.
  destruct 1; cbn; auto.
  - unfold handleSearch. destruct (negb _); cbn; [reflexivity|].
    split; [reflexivity|]. intros [e|resp]; cbn; [reflexivity|].
    split; [reflexivity|]. intros [e|data]; cbn; [reflexivity|]. destruct data; reflexivity.
  - unfold handleSearchAndAnalyze. destruct (negb _); cbn; [reflexivity|].
    split; [reflexivity|]. intros [e|resp]; cbn; [reflexivity|].
    split; [reflexivity|]. intros [e|data]; cbn; [reflexivity|]. destruct data; reflexivity.
  - unfold handleChat. destruct (negb _); cbn; [reflexivity|].
    split; [reflexivity|]. intros t. split; [eexists; split; [|intros prev; reflexivity]; reflexivity|].
    split; [reflexivity|]. intros [e|resp]; cbn.
    { split; [reflexivity|]. intros t'. split; [eexists; split; [|intros prev; reflexivity]; reflexivity|reflexivity]. }
    split; [reflexivity|]. intros [e|data]; cbn.
    { split; [reflexivity|]. intros t'. split; [eexists; split; [|intros prev; reflexivity]; reflexivity|reflexivity]. }
    destruct data; cbn; (split; [reflexivity|]); intros t';
      (split; [eexists; split; [|intros prev; reflexivity]; reflexivity|reflexivity]).
Qed.

Lemma launch_clocked p w :
  stamps p None -> clocked clock w -> clocked clock (launch clock p w).
Proof.
  intros Hp (Hn & Hord & Hall).
  destruct (exec_stamps p None (w_store w) (w_ticks w) Hp Hn Hord) as (H1 & H2 & H3).
  unfold clocked, launch; cbn [w_store w_ticks w_pending].
  repeat split; [exact H1|exact H2|]. apply Forall_app; now split.
Qed.

Lemma deliver_clocked i w : clocked clock w -> clocked clock (deliver clock i w).
Proof.
  intros Hw.
  destruct (deliver_cases clock i w) as [->|[(p & Hs & ->)|(j & t & p & Hj & Hr & ->)]].
  - exact Hw.
  - apply launch_clocked; [eapply started_stamps; eassumption|exact Hw].
  - destruct Hw as (Hn & Hord & Hall). apply launch_clocked.
    + pose proof (Forall_lookup_1 _ _ _ _ Hall Hj) as Ht. destruct Hr; apply Ht.
    + unfold clocked; cbn [forget w_store w_ticks w_pending].
      repeat split; [exact Hn|exact Hord|now apply Forall_delete].
Qed.

Lemma session_clocked ins w : clocked clock w -> clocked clock (session clock ins w).
Proof.
  revert w. induction ins as [|i ins IH]; intros w Hw; [exact Hw|].
  rewrite session_cons. apply IH, deliver_clocked, Hw.
Qed.

Lemma mounted_clocked : clocked clock (mounted clock).
Proof.
  unfold clocked; cbn. repeat split; [intros i m Hi; discriminate Hi|].
  repeat constructor. intros [e|resp]; cbn; [reflexivity|].
  split; [reflexivity|]. intros [e|data]; reflexivity.
Qed.

(** X14.  In every session the clock has been read once for each
    message of the transcript, and the message at position [i] carries
    the [i]-th reading as its timestamp: a message is stamped when it is
    appended, a reply when it arrives, not when its request was sent. *)
Theorem messages_are_stamped_in_order ins i m :
  let w := session clock ins (mounted clock) in
  chatMessages (w_store w) !! i = Some m ->
  timestamp m = clock i /\ i < w_ticks w
  /\ w_ticks w = length (chatMessages (w_store w)).
Proof.
  cbn zeta. intros Hi.
  destruct (session_clocked ins _ mounted_clocked) as (Hn & Hord & _).
  split; [now apply Hord|]. split; [|exact Hn].
  rewrite Hn. now apply lookup_lt_Some in Hi.
Qed.

(** *** Contents of the transcript *)






(** ** What the user sees *)

Lemma session_status_untouched ins w :
  count is_status_update (w_log (session clock ins w)) = count is_status_update (w_log w) ->
  agentStatus (w_store (session clock ins w)) = agentStatus (w_store w).
Proof.
  revert w. induction ins as [|i ins IH]; intros w Hc; [reflexivity|].
  rewrite session_cons in *.
  destruct (deliver_log clock i w) as [evs1 H1].
  destruct (session_log clock ins (deliver clock i w)) as [evs2 H2].
  rewrite H2, H1, !count_app in Hc.
  rewrite IH by (rewrite H2, count_app; lia).
  apply deliver_status_frame. rewrite H1, count_app. lia.
Qed.

Lemma is_healthy_iff st :
  is_healthy st = true
  <-> exists fields, st = JObj fields /\ own_field js"status" fields = Some (JStr js"healthy").
Proof.
  unfold is_healthy, status_field. split.
  - destruct st as [| | | |items|fields]; try discriminate.
    destruct (own_field js"status" fields) as [[| | |t| |]|] eqn:Hf; try discriminate.
    intros Ht. apply js_eqb_eq in Ht. subst t. exists fields. now split.
  - intros (fields & -> & ->). reflexivity.
Qed.

Lemma badge_online_iff st : badge_label st = js"Agent Online" <-> is_healthy st = true.
Proof. unfold badge_label. destruct (is_healthy st); split; try reflexivity; discriminate. Qed.

(** X15.  Until [setAgentStatus] has been called the status cell is
    [null] and the badge reads "Agent Offline", in its destructive
    variant: a probe that has not settled yet looks like an agent that is
    down. *)
Theorem badge_is_offline_until_the_probe_settles ins :
  let w := session clock ins (mounted clock) in
  count is_status_update (w_log w) = 0 ->
  agentStatus (w_store w) = JNull
  /\ badge_label (agentStatus (w_store w)) = js"Agent Offline"
  /\ badge_variant (agentStatus (w_store w)) = js"destructive".
Proof.
  cbn zeta. intros Hc.
  assert (H : agentStatus (w_store (session clock ins (mounted clock))) = JNull).
  { now rewrite session_status_untouched. }
  rewrite H. now repeat split.
Qed.

(** X16.  After the probe has settled the badge reads "Agent Online"
    exactly when the body decoded to an object whose [status] is the
    string "healthy"; a rejected request, a body that is not JSON and
    any other decoded value read "Agent Offline". *)
Theorem badge_is_online_iff_status_is_healthy s0 n answer s1 n1 s2 n2 :
  let r0 := exec clock checkAgentStatus s0 n in
  let r1 := on_fetch clock (outcome r0) answer s1 n1 in
  let r2 := on_body clock (outcome r1) s2 n2 in
  match answer with
  | inl _ => badge_label (agentStatus (store r1)) = js"Agent Offline"
  | inr resp =>
      badge_label (agentStatus (store r2)) = js"Agent Online"
      <-> exists fields,
          resp_json resp = inr (JObj fields)
          /\ own_field js"status" fields = Some (JStr js"healthy")
  end.
Proof.
  cbn zeta. destruct answer as [e|resp].
  - now rewrite checkAgentStatus_fetch_rejected.
  - rewrite checkAgentStatus_body. cbn [store apply_action agentStatus].
    rewrite badge_online_iff, is_healthy_iff.
    destruct (resp_json resp) as [e|data]; cbn [probed].
    + split; [|intros (fields & Hf & _); discriminate Hf].
      intros (fields & Hf & Hs). unfold unhealthy in Hf. injection Hf as <-.
      discriminate Hs.
    + split; intros (fields & Hf & Hs); exists fields; (split; [congruence|exact Hs]).
Qed.

(** X17.  The conditional of the analysis tab selects the spinner from
    the submission on.  When the call has settled (and no other analysis
    holds the flag up) it selects: the error text, as an ordinary
    analysis text, when the call failed; the [analysis] field as the
    text when that is a non-empty string; the placeholder when the field
    is missing or falsy; and, for a truthy field that is not a string,
    the analysis block with that value as its child. *)
Theorem analysis_panel_after_the_call s n answer s1 n1 s2 n2 :
  blank (searchQuery s) = false ->
  let r0 := exec clock (handleSearchAndAnalyze s) s n in
  let r1 := on_fetch clock (outcome r0) answer s1 n1 in
  let r2 := on_body clock (outcome r1) s2 n2 in
  analysis_panel (store r0) = PanelAnalyzing
  /\ match answer with
     | inl _ => analysis_panel (store r1) = PanelText analysis_error
     | inr resp =>
         analysis_panel (store r1) = analysis_panel s1
         /\ analysis_panel (store r2) =
              match decoded (resp_json resp) js"analysis" with
              | inl _ => PanelText analysis_error
              | inr (Some (JStr text)) =>
                  match text with
                  | [] => PanelPlaceholder
                  | _ :: _ => PanelText text
                  end
              | inr (Some child) =>
                  if truthy child then PanelChild child else PanelPlaceholder
              | inr None => PanelPlaceholder
              end
     end.
Proof.
  intros Hb. cbn zeta.
  destruct (handleAnalyze_sync clock s s n Hb) as [k Hk].
  split; [now rewrite Hk|]. destruct answer as [e|resp].
  - now rewrite (handleAnalyze_fetch_rejected clock s s n e s1 n1 Hb).
  - destruct (handleAnalyze_body clock s s n resp s1 n1 s2 n2 Hb) as (_ & -> & _).
    destruct (handleAnalyze_fetch_resolved clock s s n resp s1 n1 Hb) as [k2 ->].
    split; [reflexivity|]. unfold analyze_settled.
    destruct (resp_json resp) as [e|data]; [reflexivity|].
    destruct data; try reflexivity.
    cbn [decoded get_prop]. unfold analysis_panel, analyze_shown.
    cbn [apply_action isAnalyzing analysis].
    destruct (own_field js"analysis" fields) as [v|]; cbn [or_else]; [|reflexivity].
    destruct v as [|b|z|text|items|fs]; try reflexivity.
    + now destruct b.
    + change (truthy (JNum z)) with (negb (z =? 0)%Z).
      destruct (negb (z =? 0)%Z) eqn:Hz; [|reflexivity].
      change (truthy (JNum z)) with (negb (z =? 0)%Z). now rewrite Hz.
    + now destruct text.
Qed.

End Coverage.

(** * Concrete runs *)

Example trim_strips_both_ends : Js.trim js"  capital of France " = js"capital of France".
Proof. reflexivity. Qed.

Example trim_strips_no_break_space : Js.trim [160%N; 104%N; 105%N; 10%N] = js"hi".
Proof. reflexivity. Qed.

Example later_field_wins :
  get_prop (JObj [(js"response", JStr js"a"); (js"response", JStr js"b")]) js"response"
  = inr (Some (JStr js"b")).
Proof. reflexivity. Qed.

Example shift_enter_does_not_submit s :
  handleKeyPress {| key := js"Enter"; shiftKey := true |} (handleChat s) = Ret tt.
Proof. reflexivity. Qed.

Example chat_round_trip :
  chatMessages
    (store (settle_call epoch (handleChat (typed js"hello")) (typed js"hello") 0
              (inr (replying (JObj [(js"response", JStr js"hi there")])))))
  = [ {| role := User; content := JStr js"hello"; timestamp := epoch 0 |};
      {| role := Assistant; content := JStr js"hi there"; timestamp := epoch 1 |} ].
Proof. reflexivity. Qed.

(** C1, as first stated for every non-empty message, fails on a message
    made of one space: it is not empty, yet the guard returns before any
    setter call or request, and the transcript stays empty. *)
Lemma space_message_is_not_appended :
  chatInput (typed js" ") <> []
  /\ exec epoch (handleChat (typed js" ")) (typed js" ") 0
     = idle Finished (typed js" ") 0
  /\ chatMessages (store (exec epoch (handleChat (typed js" ")) (typed js" ") 0)) = []
  /\ deliver epoch (KeyPressChat enter)
       {| w_store := typed js" "; w_ticks := 0; w_pending := []; w_log := [] |}
     = {| w_store := typed js" "; w_ticks := 0; w_pending := []; w_log := [] |}.
Proof. repeat split; try reflexivity. discriminate. Qed.

Lemma chat_user_message_precedes_request_witness :
  blank (chatInput (typed js"hello")) = false
  /\ events (exec epoch (handleChat (typed js"hello")) (typed js"hello") 0)
     = [EvCall (SetChatMessages (append_message (user_message epoch (typed js"hello") 0)));
        EvCall (SetChatInput js"");
        EvCall (SetIsChatting true);
        EvRequest (chat_request (typed js"hello"))].
Proof.
  split; [reflexivity|].
  exact (proj1 (chat_user_message_precedes_request epoch (typed js"hello") 0 eq_refl)).
Defined.

(** C2, as first stated for every non-empty message, fails on a message
    of a line break and a tab: the submission makes no [setChatMessages]
    call and suspends on nothing, so the transcript grows by zero. *)
Lemma blank_message_gets_no_reply :
  chatInput (typed [10%N; 9%N]) <> []
  /\ count is_append
       (events (settle_call epoch (handleChat (typed [10%N; 9%N])) (typed [10%N; 9%N]) 0
                  (inr (replying (JObj [(js"response", JStr js"hi there")])))))
     = 0
  /\ length
       (chatMessages
          (store (settle_call epoch (handleChat (typed [10%N; 9%N])) (typed [10%N; 9%N]) 0
                    (inr (replying (JObj [(js"response", JStr js"hi there")]))))))
     = length (chatMessages (typed [10%N; 9%N])).
Proof. repeat split; try reflexivity. discriminate. Qed.

Lemma chat_reply_appended_once_witness :
  blank (chatInput (typed js"hello")) = false
  /\ length
       (chatMessages
          (store (settle_call epoch (handleChat (typed js"hello")) (typed js"hello") 0
                    (inl offline))))
     = length (chatMessages (typed js"hello")) + 2.
Proof.
  split; [reflexivity|].
  refine (proj2 (proj2 (proj2 (proj2 (proj2 (proj2 (proj2 (proj2 (proj2
    (chat_reply_appended_once epoch (typed js"hello") 0 (inl offline) _ _ _ _ eq_refl)))))))))
    eq_refl eq_refl).
Defined.

Lemma chat_empty_message_rejected_witness :
  chatInput (w_store (mounted epoch)) = []
  /\ deliver epoch (KeyPressChat enter) (mounted epoch) = mounted epoch.
Proof.
  split; [reflexivity|].
  exact (proj1 (proj2 (chat_empty_message_rejected epoch (mounted epoch) eq_refl)) enter).
Defined.

Lemma search_failure_is_zero_results_witness :
  blank (searchQuery (queried js"capital of France")) = false
  /\ store (on_fetch epoch
              (outcome (exec epoch (handleSearch (queried js"capital of France"))
                          (queried js"capital of France") 0))
              (inl offline) (queried js"capital of France") 0)
     = search_settled (JArr []) (queried js"capital of France").
Proof.
  split; [reflexivity|].
  exact (proj2 (proj1 (proj2 (proj2 (search_failure_is_zero_results epoch
                                       (queried js"capital of France") 0 eq_refl))
                         (queried js"capital of France") 0
                         (queried js"capital of France") 0)
                  offline)).
Defined.

Lemma analyzing_raises_and_clears_both_flags_witness :
  blank (searchQuery (queried js"capital of France")) = false
  /\ isSearching (store (exec epoch (handleSearchAndAnalyze (queried js"capital of France"))
                           (queried js"capital of France") 0)) = true
  /\ isAnalyzing (store (exec epoch (handleSearchAndAnalyze (queried js"capital of France"))
                           (queried js"capital of France") 0)) = true.
Proof.
  split; [reflexivity|].
  pose proof (analyzing_raises_and_clears_both_flags epoch
                (queried js"capital of France") 0 eq_refl) as (_ & H1 & H2 & _).
  split; assumption.
Defined.

(** C6, as first stated, fails on a response that decodes to an object
    without an [analysis] field: the call settles normally and the
    analysis cell holds the empty string. *)
Lemma analysis_can_be_empty :
  blank (searchQuery (queried js"capital of France")) = false
  /\ outcome (settle_call epoch (handleSearchAndAnalyze (queried js"capital of France"))
                (queried js"capital of France") 0
                (inr (replying (JObj [(js"error", JStr js"Internal Server Error")]))))
     = Finished
  /\ analysis
       (store (settle_call epoch (handleSearchAndAnalyze (queried js"capital of France"))
                 (queried js"capital of France") 0
                 (inr (replying (JObj [(js"error", JStr js"Internal Server Error")])))))
     = JStr js"".
Proof. repeat split. Qed.

Lemma analysis_after_settlement_witness :
  blank (searchQuery (queried js"capital of France")) = false
  /\ analysis
       (store (settle_call epoch (handleSearchAndAnalyze (queried js"capital of France"))
                 (queried js"capital of France") 0 (inl offline)))
     = JStr analysis_error.
Proof.
  split; [reflexivity|].
  exact (proj1 (analysis_after_settlement epoch (queried js"capital of France") 0
                  (inl offline) _ _ (queried js"capital of France") 0 eq_refl)).
Defined.

Lemma status_polled_once_at_mount_witness :
  count is_status_update
    (w_log (session epoch [FetchSettles 0 (inl offline)] (mounted epoch))) = 1
  /\ agentStatus
       (w_store
          (session epoch [ChangeChatInput js"hello"; KeyPressChat enter;
                          FetchSettles 0 (inl offline)]
             (session epoch [FetchSettles 0 (inl offline)] (mounted epoch))))
     = unhealthy offline.
Proof.
  split; [reflexivity|].
  rewrite (proj2 (proj2 (status_polled_once_at_mount epoch [FetchSettles 0 (inl offline)]))
             eq_refl).
  reflexivity.
Defined.

Lemma chat_history_excludes_new_message_witness :
  In (EvRequest (chat_request second_turn))
     (events (exec epoch (handleChat second_turn) second_turn 2))
  /\ exists body items,
      req_body (chat_request second_turn) = Some body
      /\ get_prop body js"message" = inr (Some (JStr js"and of Spain?"))
      /\ get_prop body js"conversation_history" = inr (Some (JArr items))
      /\ length items = 2
      /\ items !! 0
         = Some (JObj [(js"role", JStr js"user");
                       (js"content", JStr js"capital of France?");
                       (js"timestamp", JStr (epoch 0))])
      /\ items !! 1
         = Some (JObj [(js"role", JStr js"assistant");
                       (js"content", JStr js"Paris");
                       (js"timestamp", JStr (epoch 1))]).
Proof.
  assert (Hin : In (EvRequest (chat_request second_turn))
                   (events (exec epoch (handleChat second_turn) second_turn 2)))
    by (do 3 right; left; reflexivity).
  split; [exact Hin|].
  destruct (chat_history_excludes_new_message epoch second_turn 2 _ Hin)
    as (body & items & Hbody & Hmsg & Hhist & _ & Hlen & Hitems & _).
  exists body, items.
  split; [exact Hbody|]. split; [exact Hmsg|]. split; [exact Hhist|].
  split; [exact Hlen|]. split.
  - exact (Hitems 0 (user_message epoch (typed js"capital of France?") 0) eq_refl).
  - exact (Hitems 1 (assistant_message epoch (JStr js"Paris") 1) eq_refl).
Defined.

Lemma transcript_append_only_witness :
  chatMessages second_turn !! 1 = Some (assistant_message epoch (JStr js"Paris") 1)
  /\ exists body items,
      req_body (chat_request second_turn) = Some body
      /\ get_prop body js"conversation_history" = inr (Some (JArr items))
      /\ items !! 1
         = Some (JObj [(js"role", JStr js"assistant");
                       (js"content", JStr js"Paris");
                       (js"timestamp", JStr (epoch 1))]).
Proof.
  split; [reflexivity|].
  destruct (proj2 (proj2 (transcript_append_only epoch [] [] second_turn 2)))
    as (body & items & Hbody & Hhist & _ & _ & Hitems).
  exists body, items. split; [exact Hbody|]. split; [exact Hhist|].
  exact (Hitems 1 (assistant_message epoch (JStr js"Paris") 1) eq_refl).
Defined.

(** ** Runs of the further properties *)

Lemma key_press_submits_only_on_plain_enter_witness :
  (key {| key := js"a"; shiftKey := false |} <> js"Enter"
   \/ shiftKey {| key := js"a"; shiftKey := false |} = true)
  /\ deliver epoch (KeyPressChat {| key := js"a"; shiftKey := false |})
       (at_rest (typed js"hello"))
     = at_rest (typed js"hello").
Proof.
  assert (H : key {| key := js"a"; shiftKey := false |} <> js"Enter"
              \/ shiftKey {| key := js"a"; shiftKey := false |} = true)
    by (left; discriminate).
  split; [exact H|].
  exact (proj2 (proj2 (proj2 (key_press_submits_only_on_plain_enter epoch
                                {| key := js"a"; shiftKey := false |} (Ret tt)
                                (at_rest (typed js"hello"))) H))).
Defined.

Lemma chat_busy_flag_gates_only_the_button_witness :
  blank (chatInput (w_store (at_rest (apply_action (SetIsChatting true) (typed js"again")))))
  = false
  /\ isChatting (w_store (at_rest (apply_action (SetIsChatting true) (typed js"again"))))
     = true
  /\ deliver epoch ClickSend (at_rest (apply_action (SetIsChatting true) (typed js"again")))
     = at_rest (apply_action (SetIsChatting true) (typed js"again")).
Proof.
  split; [reflexivity|]. split; [reflexivity|].
  exact (proj1 (chat_busy_flag_gates_only_the_button epoch
                  (at_rest (apply_action (SetIsChatting true) (typed js"again"))) eq_refl)
           eq_refl).
Defined.

Lemma search_busy_flag_gates_only_the_buttons_witness :
  blank (searchQuery (w_store (at_rest (apply_action (SetIsSearching true)
                                          (queried js"capital of France")))))
  = false
  /\ w_log (deliver epoch (KeyPressSearch enter)
              (at_rest (apply_action (SetIsSearching true) (queried js"capital of France"))))
     = [EvCall (SetIsSearching true);
        EvRequest (search_request (queried js"capital of France"))].
Proof.
  split; [reflexivity|].
  exact (proj1 (proj2 (proj2 (proj2
           (search_busy_flag_gates_only_the_buttons epoch
              (at_rest (apply_action (SetIsSearching true) (queried js"capital of France")))
              eq_refl))))).
Defined.

Lemma one_request_per_submission_witness :
  blank (searchQuery (queried js"capital of France")) = false
  /\ List.filter is_request
       (events (exec epoch (handleSearch (queried js"capital of France"))
                  (queried js"capital of France") 0)
        ++ events (on_fetch epoch
                     (outcome (exec epoch (handleSearch (queried js"capital of France"))
                                 (queried js"capital of France") 0))
                     (inr two_results) (queried js"capital of France") 0)
        ++ events (on_body epoch
                     (outcome
                        (on_fetch epoch
                           (outcome (exec epoch (handleSearch (queried js"capital of France"))
                                       (queried js"capital of France") 0))
                           (inr two_results) (queried js"capital of France") 0))
                     (queried js"capital of France") 0))
     = [EvRequest (search_request (queried js"capital of France"))].
Proof.
  split; [reflexivity|].
  exact (proj1 (proj1 (one_request_per_submission epoch (queried js"capital of France") 0
                         (inr two_results) (queried js"capital of France") 0
                         (queried js"capital of France") 0)
                  eq_refl)).
Defined.

Lemma search_response_is_stored_as_is_witness :
  blank (searchQuery (queried js"capital of France")) = false
  /\ searchResults
       (store (on_body epoch
                 (outcome
                    (on_fetch epoch
                       (outcome (exec epoch (handleSearch (queried js"capital of France"))
                                   (queried js"capital of France") 0))
                       (inr two_results) (queried js"capital of France") 0))
                 (queried js"something else") 0))
     = JArr [JStr js"first"; JStr js"second"].
Proof.
  split; [reflexivity|].
  exact (proj1 (proj2 (proj2 (proj2
           (search_response_is_stored_as_is epoch (queried js"capital of France") 0
              two_results (queried js"capital of France") 0
              (queried js"something else") 0 eq_refl))))
           [JStr js"first"; JStr js"second"] eq_refl).
Defined.

Lemma search_touches_only_its_cells_witness :
  blank (searchQuery (queried js"capital of France")) = false
  /\ isAnalyzing
       (store (on_fetch epoch
                 (outcome (exec epoch (handleSearch (queried js"capital of France"))
                             (queried js"capital of France") 0))
                 (inl offline)
                 (analyze_started (queried js"capital of France")) 0))
     = true.
Proof.
  split; [reflexivity|].
  pose proof (search_touches_only_its_cells epoch (queried js"capital of France") 0
                (inl offline) (analyze_started (queried js"capital of France")) 0
                (queried js"capital of France") 0 eq_refl) as (_ & (_ & H & _) & _).
  exact (f_equal (fun c => snd (fst c)) H).
Defined.

Lemma chat_touches_only_its_cells_witness :
  blank (chatInput (typed js"hello")) = false
  /\ chatInput
       (store (on_fetch epoch
                 (outcome (exec epoch (handleChat (typed js"hello")) (typed js"hello") 0))
                 (inl offline) (typed js"") 1))
     = js"".
Proof.
  split; [reflexivity|].
  pose proof (chat_touches_only_its_cells epoch (typed js"hello") 0 (inl offline)
                (typed js"") 1 (typed js"") 1 eq_refl) as (_ & _ & _ & _ & H & _).
  exact H.
Defined.

Lemma analyze_leaves_chat_and_status_alone_witness :
  blank (searchQuery (queried js"capital of France")) = false
  /\ searchQuery
       (store (exec epoch (handleSearchAndAnalyze (queried js"capital of France"))
                 (queried js"capital of France") 0))
     = js"capital of France".
Proof.
  split; [reflexivity|].
  pose proof (analyze_leaves_chat_and_status_alone epoch (queried js"capital of France") 0
                (inl offline) (queried js"capital of France") 0
                (queried js"capital of France") 0 eq_refl) as ((H & _) & _).
  exact H.
Defined.

Lemma analyze_switches_tab_on_response_only_witness :
  blank (searchQuery (queried js"capital of France")) = false
  /\ activeTab
       (store (on_fetch epoch
                 (outcome (exec epoch (handleSearchAndAnalyze (queried js"capital of France"))
                             (queried js"capital of France") 0))
                 (inl offline) (analyze_started (queried js"capital of France")) 0))
     = js"search".
Proof.
  split; [reflexivity|].
  exact (proj1 (proj2 (analyze_switches_tab_on_response_only epoch
                         (queried js"capital of France") 0 (inl offline)
                         (analyze_started (queried js"capital of France")) 0
                         (queried js"capital of France") 0 eq_refl))).
Defined.

Lemma every_submission_gets_one_reply_witness :
  w_pending (session epoch failed_chat (mounted epoch)) = []
  /\ assistants (chatMessages (w_store (session epoch failed_chat (mounted epoch))))
     = users (chatMessages (w_store (session epoch failed_chat (mounted epoch)))).
Proof.
  split; [reflexivity|].
  exact (proj2 (every_submission_gets_one_reply epoch failed_chat) eq_refl).
Defined.

Lemma messages_are_stamped_in_order_witness :
  chatMessages (w_store (session epoch failed_chat (mounted epoch))) !! 1
  = Some (assistant_message epoch (JStr reply_failed) 1)
  /\ timestamp (assistant_message epoch (JStr reply_failed) 1) = epoch 1.
Proof.
  split; [reflexivity|].
  exact (proj1 (messages_are_stamped_in_order epoch failed_chat 1
                  (assistant_message epoch (JStr reply_failed) 1) eq_refl)).
Defined.

Lemma badge_is_offline_until_the_probe_settles_witness :
  count is_status_update
    (w_log (session epoch [ChangeSearchQuery js"capital of France"; KeyPressSearch enter]
              (mounted epoch))) = 0
  /\ badge_label
       (agentStatus
          (w_store (session epoch [ChangeSearchQuery js"capital of France";
                                   KeyPressSearch enter]
                      (mounted epoch))))
     = js"Agent Offline".
Proof.
  split; [reflexivity|].
  exact (proj1 (proj2 (badge_is_offline_until_the_probe_settles epoch
                         [ChangeSearchQuery js"capital of France"; KeyPressSearch enter]
                         eq_refl))).
Defined.

Lemma analysis_panel_after_the_call_witness :
  blank (searchQuery (queried js"capital of France")) = false
  /\ analysis_panel
       (store (on_fetch epoch
                 (outcome (exec epoch (handleSearchAndAnalyze (queried js"capital of France"))
                             (queried js"capital of France") 0))
                 (inl offline) (analyze_started (queried js"capital of France")) 0))
     = PanelText analysis_error.
Proof.
  split; [reflexivity|].
  exact (proj2 (analysis_panel_after_the_call epoch (queried js"capital of France") 0
                  (inl offline) (analyze_started (queried js"capital of France")) 0
                  (queried js"capital of France") 0 eq_refl)).
Defined.

(** A truthy [response] or [analysis] that is not a string is kept as it
    is: the reply below is an empty array, the analysis an object. *)
Example reply_can_be_an_empty_array :
  chatMessages
    (store (settle_call epoch (handleChat (typed js"hello")) (typed js"hello") 0
              (inr (replying (JObj [(js"response", JArr [])])))))
  !! 1
  = Some (assistant_message epoch (JArr []) 1).
Proof. reflexivity. Qed.

Example analysis_can_be_an_object :
  analysis_panel
    (store (settle_call epoch (handleSearchAndAnalyze (queried js"capital of France"))
              (queried js"capital of France") 0
              (inr (replying (JObj [(js"analysis", JObj [(js"text", JStr js"Paris")])])))))
  = PanelChild (JObj [(js"text", JStr js"Paris")]).
Proof. reflexivity. Qed.
